(** * keras-mmoe: the census-income demo (census_income_demo.py)

    A shallow embedding of the demo script: the Python runtime pieces it
    relies on (exceptions, float arithmetic, truthiness, [range]), the
    command-line namespace, [data_preparation], the phases of [main]
    (training, precision policy, the timed evaluation harness), the
    [ROCCallback.on_epoch_end] reporter and the network that [main] builds
    around the MMoE layer. *)

From Stdlib Require Import ZArith List String Bool Lia Floats Reals Lra Permutation.
Import ListNotations.

Local Open Scope string_scope.
Local Open Scope list_scope.
Local Open Scope Z_scope.

(* ================================================================== *)
(** ** The Python runtime the script depends on *)

Module Py.

(** The exceptions the modelled code can raise. *)
Inductive exn : Type :=
| ZeroDivisionError
| OverflowError
| ValueError
| IndexError.

Inductive result (A : Type) : Type :=
| Ok (a : A)
| Raise (e : exn).
Arguments Ok {A} a.
Arguments Raise {A} e.

(** Statements run in a state [S] (clock reads, standard output, calls
    into Keras) and either return or raise; the state reached when an
    exception is raised is kept, so that what was printed before the
    failure stays observable. *)
Definition M (S A : Type) : Type := S -> result A * S.

Definition ret {S A : Type} (a : A) : M S A := fun s => (Ok a, s).

Definition raise {S A : Type} (e : exn) : M S A := fun s => (Raise e, s).

Definition lift {S A : Type} (r : result A) : M S A := fun s => (r, s).

Definition bind {S A B : Type} (c : M S A) (k : A -> M S B) : M S B :=
  fun s =>
    match c s with
    | (Ok a, s') => k a s'
    | (Raise e, s') => (Raise e, s')
    end.

Definition when {S : Type} (b : bool) (c : M S unit) : M S unit :=
  if b then c else ret tt.

(** [for x in l: acc = body(acc, x)] *)
Fixpoint for_each {S A B : Type} (body : B -> A -> M S B) (l : list A) (acc : B)
  : M S B :=
  match l with
  | [] => ret acc
  | x :: l' => bind (body acc x) (for_each body l')
  end.

(** [range(n)]: 0, 1, ..., n-1; empty when [n <= 0]. *)
Definition range (n : Z) : list Z := map Z.of_nat (seq 0 (Z.to_nat n)).

(** Truthiness of a [str]: only the empty string is falsy. *)
Definition truthy_str (s : string) : bool := negb (String.eqb s "").

(** [float(z)] for an [int]: the nearest binary64 value (ties to even);
    [OverflowError] when the integer is too large for a float. *)
Definition float_of_int (z : Z) : result float :=
  match binary_normalize prec emax z 0 false with
  | S754_infinity _ => Raise OverflowError
  | sf => Ok (SF2Prim sf)
  end.

(** [a / b] on floats: [ZeroDivisionError] when [b == 0.0] (which holds
    for [-0.0] too), the IEEE quotient otherwise. *)
Definition float_truediv (a b : float) : result float :=
  if PrimFloat.is_zero b then Raise ZeroDivisionError else Ok (a / b)%float.

(** [a / b] with a float [a] and an int [b]: [b] is converted first. *)
Definition truediv_float_int (a : float) (b : Z) : result float :=
  match float_of_int b with
  | Ok b' => float_truediv a b'
  | Raise e => Raise e
  end.

(** [a / b] with an int [a] and a float [b]. *)
Definition truediv_int_float (a : Z) (b : float) : result float :=
  match float_of_int a with
  | Ok a' => float_truediv a' b
  | Raise e => Raise e
  end.

(** [int(a / b)] for ints [a], [b]: true division raises
    [ZeroDivisionError] on [b == 0]; [int()] truncates the quotient toward
    zero.  The quotient is the correctly rounded value of the exact
    rational, and its truncation is that of the exact rational for the
    row counts a data frame can hold (below 2^53), which is what the
    model returns. *)
Definition int_of_truediv (a b : Z) : result Z :=
  if b =? 0 then Raise ZeroDivisionError else Ok (Z.quot a b).

(** [int(x)] for a float: truncation toward zero; [OverflowError] on an
    infinity and [ValueError] on a NaN. *)
Definition int_of_float (x : float) : result Z :=
  match Prim2SF x with
  | S754_zero _ => Ok 0
  | S754_finite s m e =>
      let v := if 0 <=? e then Zpos m * 2 ^ e else Z.shiftr (Zpos m) (- e) in
      Ok (if s then - v else v)
  | S754_infinity _ => Raise OverflowError
  | S754_nan => Raise ValueError
  end.

(** [int(a / b)] carried out in binary64, for operands that floats hold
    exactly (below 2^53): the quotient is then the IEEE quotient of the
    two converted operands.  [int_of_truediv] is checked against it on
    sample inputs. *)
Definition int_of_truediv_binary64 (a b : Z) : result Z :=
  match float_of_int a, float_of_int b with
  | Ok a', Ok b' =>
      match float_truediv a' b' with
      | Ok q => int_of_float q
      | Raise e => Raise e
      end
  | Raise e, _ => Raise e
  | _, Raise e => Raise e
  end.

End Py.

Declare Scope py_scope.
Delimit Scope py_scope with py.
Notation "x <- c ;; k" := (Py.bind c (fun x => k))
  (at level 61, c at next level, right associativity) : py_scope.
Notation "c ;; k" := (Py.bind c (fun _ => k))
  (at level 61, right associativity) : py_scope.

(* ================================================================== *)
(** ** The command line (the [argparse] namespace of [main]) *)

Module Args.

(** One field per [parser.add_argument], with the type argparse gives it:
    [store_true] flags are [bool], [type=str] options are strings,
    [type=int] options are ints. *)
Record args : Type := {
  train : bool;
  evaluate : string;
  predict : bool;
  profile : bool;
  tensorboard : bool;
  batch_size : Z;
  precision : string;
  epochs : Z;
  num_iter : Z;
  num_warmup : Z
}.

(** The namespace when no option is given: the [default=] of each
    argument, [False] for [store_true]. *)
Definition default_args : args := {|
  train := false;
  evaluate := "True";
  predict := false;
  profile := false;
  tensorboard := false;
  batch_size := 1;
  precision := "float32";
  epochs := 10;
  num_iter := 200;
  num_warmup := 3
|}.

(** [--evaluate v] on an otherwise unchanged command line. *)
Definition with_evaluate (a : args) (v : string) : args := {|
  train := train a;
  evaluate := v;
  predict := predict a;
  profile := profile a;
  tensorboard := tensorboard a;
  batch_size := batch_size a;
  precision := precision a;
  epochs := epochs a;
  num_iter := num_iter a;
  num_warmup := num_warmup a
|}.

(** [--epochs e] on an otherwise unchanged command line. *)
Definition with_epochs (a : args) (e : Z) : args := {|
  train := train a;
  evaluate := evaluate a;
  predict := predict a;
  profile := profile a;
  tensorboard := tensorboard a;
  batch_size := batch_size a;
  precision := precision a;
  epochs := e;
  num_iter := num_iter a;
  num_warmup := num_warmup a
|}.

End Args.

(* ================================================================== *)
(** ** The script: [data_preparation] and [main] *)

Module Demo.
Import Py Args.
Local Open Scope py_scope.

Definition SEED : Z := 1.

(** The 42 column names given to [pd.read_csv]. *)
Definition column_names : list string :=
  ["age"; "class_worker"; "det_ind_code"; "det_occ_code"; "education";
   "wage_per_hour"; "hs_college"; "marital_stat"; "major_ind_code";
   "major_occ_code"; "race"; "hisp_origin"; "sex"; "union_member";
   "unemp_reason"; "full_or_part_emp"; "capital_gains"; "capital_losses";
   "stock_dividends"; "tax_filer_stat"; "region_prev_res"; "state_prev_res";
   "det_hh_fam_stat"; "det_hh_summ"; "instance_weight"; "mig_chg_msa";
   "mig_chg_reg"; "mig_move_reg"; "mig_same"; "mig_prev_sunbelt"; "num_emp";
   "fam_under_18"; "country_father"; "country_mother"; "country_self";
   "citizenship"; "own_or_self"; "vet_question"; "vet_benefits";
   "weeks_worked"; "year"; "income_50k"].

(** A record of the CSV file: one field per column name. *)
Definition raw_row : Type := list string.
Definition raw_frame : Type := list raw_row.

Fixpoint index_of (name : string) (names : list string) : option nat :=
  match names with
  | [] => None
  | n :: rest =>
      if String.eqb n name then Some O
      else option_map S (index_of name rest)
  end.

(** [df.<name>] on one record. *)
Definition column (name : string) (r : raw_row) : string :=
  match index_of name column_names with
  | Some i => nth i r ""
  | None => ""
  end.

(** [(df.<name> == value).astype(int)] *)
Definition equals_as_int (name value : string) (df : raw_frame) : list nat :=
  map (fun r => if String.eqb (column name r) value then 1%nat else 0%nat) df.

(** [to_categorical(y, num_classes)]: one one-hot row per class index. *)
Definition to_categorical (y : list nat) (num_classes : nat) : list (list Z) :=
  map (fun c => map (fun j => if Nat.eqb j c then 1 else 0) (seq 0 num_classes)) y.

(** A label matrix (one one-hot row per example). *)
Definition labels : Type := list (list Z).

(** Positional selection ([frame.iloc[idx]], [array[idx]]): [IndexError]
    on a position outside the frame. *)
Fixpoint take_rows {A : Type} (rows : list A) (idx : list nat) : result (list A) :=
  match idx with
  | [] => Ok []
  | i :: idx' =>
      match nth_error rows i, take_rows rows idx' with
      | Some r, Ok rs => Ok (r :: rs)
      | None, _ => Raise IndexError
      | _, Raise e => Raise e
      end
  end.

Section Script.

(** A row of a frame after one-hot expansion (pandas' business). *)
Variable frow : Type.

(** The files under [data/], by path. *)
Variable read_csv : string -> raw_frame.
(** [pd.get_dummies(df.drop(label_columns, axis=1), columns=categorical_columns)] *)
Variable get_dummies : raw_frame -> list frow.
(** [frame['det_hh_fam_stat_ Grandchild <18 ever marr not in subfamily'] = 0] *)
Variable fill_missing_column : list frow -> list frow.
(** [frame.sample(frac=0.5, replace=False, random_state=SEED).index] *)
Variable sample_half_index : Z -> list frow -> list nat.
(** The wall clock: the value of the n-th call of [time.time()]. *)
Variable clock : nat -> float.

Definition frame : Type := list frow.

(** What [data_preparation] returns. *)
Record prepared : Type := {
  train_data : frame;
  train_label : list labels;
  validation_data : frame;
  validation_label : list labels;
  test_data : frame;
  test_label : list labels;
  output_info : list (nat * string)
}.

(** [pd.read_csv(path, ..., nrows=n)] *)
Definition pd_read_csv (path : string) (nrows : nat) : raw_frame :=
  firstn nrows (read_csv path).

Definition data_preparation : result prepared :=
  let train_df := pd_read_csv "data/census-income.test.gz" 90 in
  let other_df := pd_read_csv "data/census-income.test.gz" 90 in
  let transformed_train := get_dummies train_df in
  let transformed_other := fill_missing_column (get_dummies other_df) in
  let train_income := to_categorical (equals_as_int "income_50k" " 50000+." train_df) 2 in
  let train_marital := to_categorical (equals_as_int "marital_stat" " Never married" train_df) 2 in
  let other_income := to_categorical (equals_as_int "income_50k" " 50000+." other_df) 2 in
  let other_marital := to_categorical (equals_as_int "marital_stat" " Never married" other_df) 2 in
  (* sorted(dict.keys()) = ['income', 'marital'] *)
  let output_info := [(2%nat, "income"); (2%nat, "marital")] in
  let validation_indices := sample_half_index SEED transformed_other in
  let test_indices :=
    filter (fun i => negb (existsb (Nat.eqb i) validation_indices))
           (seq 0 (List.length transformed_other)) in
  match take_rows transformed_other validation_indices,
        take_rows other_income validation_indices,
        take_rows other_marital validation_indices,
        take_rows transformed_other test_indices,
        take_rows other_income test_indices,
        take_rows other_marital test_indices with
  | Ok validation_data, Ok vi, Ok vm, Ok test_data, Ok ti, Ok tm =>
      Ok {| train_data := transformed_train;
            train_label := [train_income; train_marital];
            validation_data := validation_data;
            validation_label := [vi; vm];
            test_data := test_data;
            test_label := [ti; tm];
            output_info := output_info |}
  | _, _, _, _, _, _ => Raise IndexError
  end.

(** Lines written to standard output. *)
Inductive line : Type :=
| LArgs (a : args)
| LShape (what : string) (f : frame)
| LEvaluateStart
| LCollectTensorboard
| LCollectTensorboardEnd
| LIteration (i : Z) (dt : float)
| LLatencyRaw (latency : float)
| LLatency (latency : float)
| LThroughput (throughput : float).

(** What the run does that can be observed from outside. *)
Inductive event : Type :=
| Print (l : line)
| ModelSummary
| ModelFit (x : frame) (y : list labels) (validation : frame * list labels) (fit_epochs : Z)
| SetGlobalPolicy (policy : string)
| ProfilerStart
| ProfilerStop
| ModelEvaluate (x : frame) (y : list labels) (steps : Z) (bs : Z).

Record world : Type := {
  ticks : nat;
  out : list event
}.

Definition emit (e : event) : M world unit :=
  fun w => (Ok tt, {| ticks := ticks w; out := out w ++ [e] |}).

Definition print (l : line) : M world unit := emit (Print l).

Definition time_time : M world float :=
  fun w => (Ok (clock (ticks w)), {| ticks := S (ticks w); out := out w |}).

(** [if args.train: model.fit(...)] *)
Definition train_phase (a : args) (p : prepared) : M world unit :=
  when (train a)
    (emit (ModelFit (validation_data p) (validation_label p)
                    (validation_data p, validation_label p) 1)).

(** [if args.precision == 'float16': ...] *)
Definition precision_phase (a : args) : M world unit :=
  when (String.eqb (precision a) "float16") (emit (SetGlobalPolicy "mixed_float16")).

(** [num_iter = int(len(test_data) / args.batch_size)]
    [num_iter = min(num_iter, args.num_iter)] *)
Definition iteration_count (a : args) (p : prepared) : result Z :=
  match int_of_truediv (Z.of_nat (List.length (test_data p))) (batch_size a) with
  | Ok n => Ok (Z.min n (num_iter a))
  | Raise e => Raise e
  end.

(** The guard [if i > args.num_warmup]. *)
Definition included (a : args) (i : Z) : bool := i >? num_warmup a.

Definition collecting (a : args) (i : Z) : bool :=
  tensorboard a && (i =? epochs a / 2).

(** One pass of [for i in range(args.epochs)], on the accumulators
    [(total_time, total_sample)]. *)
Definition repetition (a : args) (p : prepared) (n : Z) (acc : float * Z) (i : Z)
  : M world (float * Z) :=
  when (collecting a i) (print LCollectTensorboard ;; emit ProfilerStart) ;;
  start_time <- time_time ;;
  emit (ModelEvaluate (test_data p) (test_label p) n (batch_size a)) ;;
  end_time <- time_time ;;
  print (LIteration i (end_time - start_time)%float) ;;
  acc' <- ret (if included a i
               then ((fst acc + (end_time - start_time))%float, snd acc + n * batch_size a)
               else acc) ;;
  when (collecting a i) (emit ProfilerStop ;; print LCollectTensorboardEnd) ;;
  ret acc'.

(** The statements after the loop. *)
Definition report (total_time : float) (total_sample : Z) : M world unit :=
  q <- lift (truediv_float_int total_time total_sample) ;;
  latency <- ret (q * 1000)%float ;;
  print (LLatencyRaw latency) ;;
  throughput <- lift (truediv_int_float total_sample total_time) ;;
  print (LLatency latency) ;;
  print (LThroughput throughput).

(** The body of [if args.evaluate:]. *)
Definition evaluation_harness (a : args) (p : prepared) : M world unit :=
  print LEvaluateStart ;;
  n <- lift (iteration_count a p) ;;
  totals <- for_each (repetition a p n) (range (epochs a)) (0%float, 0) ;;
  report (fst totals) (snd totals).

Definition evaluate_phase (a : args) (p : prepared) : M world unit :=
  when (truthy_str (evaluate a)) (evaluation_harness a p).

(** [main], with the phases above in place of their statements.  The
    construction of the model (between the shape lines and
    [model.summary()]) has no effect on this state; module [Net] holds
    the network it builds. *)
Definition main (a : args) : M world unit :=
  print (LArgs a) ;;
  p <- lift data_preparation ;;
  print (LShape "Training" (train_data p)) ;;
  print (LShape "Validation" (validation_data p)) ;;
  print (LShape "Test" (test_data p)) ;;
  emit ModelSummary ;;
  train_phase a p ;;
  precision_phase a ;;
  evaluate_phase a p.

End Script.

Arguments train_data {frow} p.
Arguments train_label {frow} p.
Arguments validation_data {frow} p.
Arguments validation_label {frow} p.
Arguments test_data {frow} p.
Arguments test_label {frow} p.
Arguments output_info {frow} p.
Arguments ticks {frow} w.
Arguments out {frow} w.
Arguments LArgs {frow} a.
Arguments LShape {frow} what f.
Arguments LEvaluateStart {frow}.
Arguments LCollectTensorboard {frow}.
Arguments LCollectTensorboardEnd {frow}.
Arguments LIteration {frow} i dt.
Arguments LLatencyRaw {frow} latency.
Arguments LLatency {frow} latency.
Arguments LThroughput {frow} throughput.
Arguments Print {frow} l.
Arguments ModelSummary {frow}.
Arguments ModelFit {frow} x y validation fit_epochs.
Arguments SetGlobalPolicy {frow} policy.
Arguments ProfilerStart {frow}.
Arguments ProfilerStop {frow}.
Arguments ModelEvaluate {frow} x y steps bs.
Arguments emit {frow} e.
Arguments print {frow} l.
Arguments time_time {frow} clock.
Arguments train_phase {frow} a p.
Arguments precision_phase {frow} a.
Arguments iteration_count {frow} a p.
Arguments repetition {frow} clock a p n acc i.
Arguments report {frow} total_time total_sample.
Arguments evaluation_harness {frow} clock a p.
Arguments evaluate_phase {frow} clock a p.
Arguments data_preparation {frow} read_csv get_dummies fill_missing_column sample_half_index.
Arguments main {frow} read_csv get_dummies fill_missing_column sample_half_index clock a.

(** *** A run in the words of its description

    The quantities the aggregate statistics are described with (the
    duration a repetition measures, the repetitions that are kept once
    warm-up is excluded, sums over them) and the events each part of a
    run leaves on its output. *)
Section Aggregates.

Context {frow : Type}.
Variable clock : nat -> float.

(** The duration measured by repetition [i] of a harness entered after
    [t0] clock reads: each repetition reads the clock twice. *)
Definition elapsed (t0 : nat) (i : Z) : float :=
  (clock (t0 + 2 * Z.to_nat i + 1) - clock (t0 + 2 * Z.to_nat i))%float.

(** Repetitions kept in the aggregate: those whose index is not [<=] the
    warm-up count. *)
Definition kept (e w : Z) : list Z :=
  filter (fun i => negb (i <=? w)) (range e).

Definition sum_float (l : list float) : float := fold_left PrimFloat.add l 0%float.

Definition sum_int (l : list Z) : Z := fold_left Z.add l 0.

(** What one repetition leaves on the output. *)
Definition repetition_events (a : args) (p : prepared frow) (n : Z) (t0 : nat) (i : Z)
  : list (event frow) :=
  (if collecting a i then [Print LCollectTensorboard; ProfilerStart] else [])
  ++ [ModelEvaluate (test_data p) (test_label p) n (batch_size a);
      Print (LIteration i (elapsed t0 i))]
  ++ (if collecting a i then [ProfilerStop; Print LCollectTensorboardEnd] else []).

(** The state in which the statements after the loop run, for a harness
    entered in [w]: [epochs] repetitions have read the clock twice each
    and left their events after the start line. *)
Definition after_loop (a : args) (p : prepared frow) (n : Z) (w : world frow)
  : world frow :=
  {| ticks := (ticks w + 2 * Z.to_nat (epochs a))%nat;
     out := out w ++ Print LEvaluateStart ::
            flat_map (repetition_events a p n (ticks w)) (range (epochs a)) |}.

(** The events of [main] before the three phases. *)
Definition preamble (a : args) (p : prepared frow) : list (event frow) :=
  [Print (LArgs a);
   Print (LShape "Training" (train_data p));
   Print (LShape "Validation" (validation_data p));
   Print (LShape "Test" (test_data p));
   ModelSummary].

(** What [model.fit] is called with, when it is called. *)
Definition fit_call (p : prepared frow) : event frow :=
  ModelFit (validation_data p) (validation_label p)
           (validation_data p, validation_label p) 1.

Definition policy_events (a : args) : list (event frow) :=
  if String.eqb (precision a) "float16" then [SetGlobalPolicy "mixed_float16"] else [].

(** A line that reports an aggregate statistic. *)
Definition is_report (e : event frow) : bool :=
  match e with
  | Print (LLatencyRaw _) | Print (LLatency _) | Print (LThroughput _) => true
  | _ => false
  end.

Definition is_evaluate (e : event frow) : bool :=
  match e with
  | ModelEvaluate _ _ _ _ => true
  | _ => false
  end.

Definition is_fit (e : event frow) : bool :=
  match e with
  | ModelFit _ _ _ _ => true
  | _ => false
  end.

End Aggregates.

(** The repetitions whose guard [i > args.num_warmup] holds. *)
Definition contributing (a : args) : list Z :=
  filter (included a) (range (epochs a)).

(** *** Concrete runs *)

(** A clock whose n-th reading is n^2/16 seconds. *)
Definition sample_clock (n : nat) : float :=
  SF2Prim (binary_normalize prec emax (Z.of_nat n * Z.of_nat n) (-4) false).

(** Splits with the given numbers of rows, the frames holding [tt] rows. *)
Definition sample_prepared (rows : nat) : prepared unit := {|
  train_data := repeat tt (2 * rows);
  train_label := [repeat [1; 0] (2 * rows); repeat [0; 1] (2 * rows)];
  validation_data := repeat tt rows;
  validation_label := [repeat [1; 0] rows; repeat [0; 1] rows];
  test_data := repeat tt rows;
  test_label := [repeat [1; 0] rows; repeat [0; 1] rows];
  output_info := [(2%nat, "income"); (2%nat, "marital")]
|}.

Definition fresh_world : world unit := {| ticks := 0; out := [] |}.

(** [--epochs 5 --num_warmup 3] *)
Definition args_5_3 : args := {|
  train := false;
  evaluate := "True";
  predict := false;
  profile := false;
  tensorboard := false;
  batch_size := 1;
  precision := "float32";
  epochs := 5;
  num_iter := 200;
  num_warmup := 3
|}.

(** [-b 10] with the default iteration cap of 200. *)
Definition args_b10 : args := {|
  train := false;
  evaluate := "True";
  predict := false;
  profile := false;
  tensorboard := false;
  batch_size := 10;
  precision := "float32";
  epochs := 10;
  num_iter := 200;
  num_warmup := 3
|}.

(** [--train --epochs 3 --num_warmup 7] *)
Definition args_3_7 : args := {|
  train := true;
  evaluate := "True";
  predict := false;
  profile := false;
  tensorboard := false;
  batch_size := 1;
  precision := "float32";
  epochs := 3;
  num_iter := 200;
  num_warmup := 7
|}.

(** A four-record file: a record with the given labels, the other
    fields empty. *)
Definition sample_record (marital income : string) : raw_row :=
  repeat "" 7 ++ [marital] ++ repeat "" 33 ++ [income].

Definition sample_read_csv (path : string) : raw_frame :=
  if String.eqb path "data/census-income.test.gz"
  then [sample_record " Never married" " - 50000.";
        sample_record " Divorced" " 50000+.";
        sample_record " Never married" " 50000+.";
        sample_record " Widowed" " - 50000."]
  else [].

(** Stand-ins for pandas: the expanded rows are numbered 100, 101, ...
    in file order, filling the missing column changes nothing, and the
    sample draws rows 2 and 0. *)
Definition sample_get_dummies (df : raw_frame) : list nat :=
  seq 100 (List.length df).

Definition sample_fill (f : list nat) : list nat := f.

Definition sample_half (seed : Z) (f : list nat) : list nat := [2%nat; 0%nat].

(** [--train] *)
Definition args_train : args := {|
  train := true;
  evaluate := "True";
  predict := false;
  profile := false;
  tensorboard := false;
  batch_size := 1;
  precision := "float32";
  epochs := 10;
  num_iter := 200;
  num_warmup := 3
|}.

End Demo.

(* ================================================================== *)
(** ** [ROCCallback]: the per-epoch ROC-AUC reporter *)

Module ROC.
Import Py.
Local Open Scope py_scope.

(** [l[i]]: [IndexError] outside the list. *)
Definition getitem {A : Type} (l : list A) (i : nat) : result A :=
  match nth_error l i with
  | Some x => Ok x
  | None => Raise IndexError
  end.

(** [enumerate(l)] *)
Definition enumerate {A : Type} (l : list A) : list (nat * A) :=
  combine (seq 0 (List.length l)) l.

Section Callback.

(** Feature frames, label matrices, prediction matrices and scores. *)
Variables X Y P score : Type.
(** [self.model.predict] and [self.model.output_names]. *)
Variable predict : X -> list P.
Variable output_names : list string.
(** [sklearn.metrics.roc_auc_score]; it raises [ValueError] when the
    labels hold a single class. *)
Variable roc_auc_score : Y -> P -> result score.
(** [round(x, 4)] *)
Variable round4 : score -> score.

(** The fields set by [__init__]. *)
Record callback : Type := {
  train_X : X;
  train_Y : list Y;
  validation_X : X;
  validation_Y : list Y;
  test_X : X;
  test_Y : list Y
}.

Definition init (training_data validation_data test_data : X * list Y) : callback := {|
  train_X := fst training_data;
  train_Y := snd training_data;
  validation_X := fst validation_data;
  validation_Y := snd validation_data;
  test_X := fst test_data;
  test_Y := snd test_data
|}.

(** The line printed for one task. *)
Record roc_line : Type := {
  task : string;
  train_auc : score;
  validation_auc : score;
  test_auc : score
}.

Definition print (l : roc_line) : M (list roc_line) unit :=
  fun stdout => (Ok tt, stdout ++ [l]).

(** [roc_auc_score(labels[index], prediction[index])] *)
Definition split_score (labels : list Y) (prediction : list P) (index : nat)
  : result score :=
  match getitem labels index with
  | Raise e => Raise e
  | Ok y =>
      match getitem prediction index with
      | Raise e => Raise e
      | Ok s => roc_auc_score y s
      end
  end.

(** The three scores of one task, in the order the loop body computes
    them, and the line made of them. *)
Definition task_line (self : callback)
    (train_prediction validation_prediction test_prediction : list P)
    (index : nat) (output_name : string) : result roc_line :=
  match split_score (train_Y self) train_prediction index with
  | Raise e => Raise e
  | Ok train_roc_auc =>
      match split_score (validation_Y self) validation_prediction index with
      | Raise e => Raise e
      | Ok validation_roc_auc =>
          match split_score (test_Y self) test_prediction index with
          | Raise e => Raise e
          | Ok test_roc_auc =>
              Ok {| task := output_name;
                    train_auc := round4 train_roc_auc;
                    validation_auc := round4 validation_roc_auc;
                    test_auc := round4 test_roc_auc |}
          end
      end
  end.

Definition on_epoch_end (self : callback) : M (list roc_line) unit :=
  let train_prediction := predict (train_X self) in
  let validation_prediction := predict (validation_X self) in
  let test_prediction := predict (test_X self) in
  for_each
    (fun (_ : unit) (it : nat * string) =>
       l <- lift (task_line self train_prediction validation_prediction
                            test_prediction (fst it) (snd it)) ;;
       print l)
    (enumerate output_names) tt.

End Callback.

Arguments train_X {X Y} c.
Arguments train_Y {X Y} c.
Arguments validation_X {X Y} c.
Arguments validation_Y {X Y} c.
Arguments test_X {X Y} c.
Arguments test_Y {X Y} c.
Arguments Build_callback {X Y}.
Arguments task {score} r.
Arguments train_auc {score} r.
Arguments validation_auc {score} r.
Arguments test_auc {score} r.
Arguments Build_roc_line {score}.
Arguments print {score} l.
Arguments split_score {Y P score} roc_auc_score labels prediction index.
Arguments task_line {X Y P score} roc_auc_score round4 self _ _ _ index output_name.
Arguments on_epoch_end {X Y P score} predict output_names roc_auc_score round4 self.

(** *** A reference [roc_auc_score] and a concrete call

    The area under the ROC curve in its pairwise form: the share of
    (positive, negative) pairs ranked in the right order, ties counting
    one half; undefined, and a [ValueError], when a class is missing.
    Label and score matrices are scored column by column and averaged,
    as [roc_auc_score] does for indicator matrices. *)

Fixpoint select (y : list bool) (s : list float) (cls : bool) : list float :=
  match y, s with
  | yi :: y', si :: s' =>
      if Bool.eqb yi cls then si :: select y' s' cls else select y' s' cls
  | _, _ => []
  end.

Definition pair_credit (sp sn : float) : float :=
  if (sn <? sp)%float then 1%float
  else if (sp =? sn)%float then 0.5%float else 0%float.

Definition float_sum (l : list float) : float := fold_left PrimFloat.add l 0%float.

Definition float_of_nat (n : nat) : float :=
  SF2Prim (binary_normalize prec emax (Z.of_nat n) 0 false).

Definition binary_auc (y : list bool) (s : list float) : result float :=
  let pos := select y s true in
  let neg := select y s false in
  match pos, neg with
  | [], _ | _, [] => Raise ValueError
  | _, _ =>
      Ok (float_sum (flat_map (fun sp => map (pair_credit sp) neg) pos)
          / float_of_nat (List.length pos * List.length neg))%float
  end.

Definition column_of {A : Type} (d : A) (j : nat) (m : list (list A)) : list A :=
  map (fun r => nth j r d) m.

Fixpoint column_aucs (y : list (list Z)) (s : list (list float)) (cols : list nat)
  : result (list float) :=
  match cols with
  | [] => Ok []
  | j :: cols' =>
      match binary_auc (map (Z.eqb 1) (column_of 0 j y)) (column_of 0%float j s) with
      | Raise e => Raise e
      | Ok v =>
          match column_aucs y s cols' with
          | Raise e => Raise e
          | Ok vs => Ok (v :: vs)
          end
      end
  end.

Definition reference_roc_auc_score (y : list (list Z)) (s : list (list float))
  : result float :=
  let width := match y with [] => 0%nat | r :: _ => List.length r end in
  match column_aucs y s (seq 0 width) with
  | Raise e => Raise e
  | Ok vs => Ok (float_sum vs / float_of_nat width)%float
  end.

(** Two tasks on four examples per split.  The labels of [income] on the
    test split are all of the positive class; every other label matrix
    holds both classes. *)
Definition both_classes : list (list Z) := [[1; 0]; [0; 1]; [1; 0]; [0; 1]].
Definition all_positive : list (list Z) := [[0; 1]; [0; 1]; [0; 1]; [0; 1]].

Definition sample_scores : list (list float) :=
  [[0.75; 0.25]; [0.25; 0.75]; [0.5; 0.5]; [0.125; 0.875]]%float.

Definition sample_callback : callback unit (list (list Z)) :=
  init unit (list (list Z))
       (tt, [both_classes; both_classes])
       (tt, [both_classes; both_classes])
       (tt, [all_positive; both_classes]).

Definition sample_predict (_ : unit) : list (list (list float)) :=
  [sample_scores; sample_scores].

Definition sample_output_names : list string := ["income"; "marital"].

Definition same_score (x : float) : float := x.

(** The same call with both classes present everywhere. *)
Definition sound_callback : callback unit (list (list Z)) :=
  init unit (list (list Z))
       (tt, [both_classes; both_classes])
       (tt, [both_classes; both_classes])
       (tt, [both_classes; both_classes]).

End ROC.

(* ================================================================== *)
(** ** The network built by [main]

    Layers are functions on real vectors and matrices (a matrix is the
    list of its rows, one row per example); rounding is not part of this
    model.  Weights are indexed by position, so a layer owns a weight
    for every input and unit index whatever the widths. *)

Module Net.
Import Py.
Local Open Scope R_scope.

Definition vector : Type := list R.
Definition matrix : Type := list vector.

Definition vsum (v : vector) : R := fold_right Rplus 0 v.

(** The inner product of a row with the weights [w 0], [w 1], ... *)
Fixpoint dot_from (i : nat) (x : vector) (w : nat -> R) : R :=
  match x with
  | [] => 0
  | xi :: x' => xi * w i + dot_from (S i) x' w
  end.

Definition dot (x : vector) (w : nat -> R) : R := dot_from 0 x w.

Definition relu (v : vector) : vector := map (Rmax 0) v.

Definition softmax (v : vector) : vector :=
  map (fun z => exp z / vsum (map exp v)) v.

(** The parameters of a dense layer: [kernel i j] joins input [i] to unit
    [j], [bias j] belongs to unit [j]. *)
Record weights : Type := {
  kernel : nat -> nat -> R;
  bias : nat -> R
}.

(** [Dense(units, activation)] on one example. *)
Definition dense (units : nat) (activation : vector -> vector) (th : weights)
    (x : vector) : vector :=
  activation (map (fun j => dot x (fun i => kernel th i j) + bias th j) (seq 0 units)).

(** Every row has the width the layer was built for. *)
Definition has_width (width : nat) (X : matrix) : bool :=
  forallb (fun x => Nat.eqb (List.length x) width) X.

(** *** The MMoE layer *)

Record mmoe_weights : Type := {
  expert : nat -> weights;
  gate : nat -> weights
}.

Section MMoE.

(** The configuration: input width, expert embedding width, number of
    experts and of tasks, and the experts' activation. *)
Variables (width units num_experts num_tasks : nat).
Variable expert_activation : R -> R.
Variable th : mmoe_weights.

(** Modelled from the spec: the Expert Bank of the MMoE layer, whose
    source (mmoe.py) is not among the files: [num_experts] independent
    dense projections of the same input, each of width [units]. *)
Definition expert_bank_row (x : vector) : list vector :=
  map (fun e => dense units (map expert_activation) (expert th e) x) (seq 0 num_experts).

(** Modelled from the spec: the Gating Network of mmoe.py for task [t]:
    an affine projection to [num_experts] logits followed by softmax
    along the expert dimension. *)
Definition gate_row (t : nat) (x : vector) : vector :=
  dense num_experts softmax (gate th t) x.

(** Modelled from the spec: the Gating Network of mmoe.py on a batch; a
    ShapeMismatch when a row has not the configured width. *)
Definition gating_network (t : nat) (X : matrix) : result matrix :=
  if has_width width X then Ok (map (gate_row t) X) else Raise ValueError.

(** Modelled from the spec: the Mixture Combiner of mmoe.py, for one
    example: [mixed = sum over e of gate[e] * expert_e], no
    renormalisation. *)
Definition mixture_combiner_row (g : vector) (experts : list vector) : vector :=
  map (fun u => vsum (map (fun ge => fst ge * nth u (snd ge) 0) (combine g experts)))
      (seq 0 units).

(** Modelled from the spec: the MMoE layer of mmoe.py: one mixed
    embedding matrix per task, all tasks sharing the expert embeddings
    of the example. *)
Definition mmoe (X : matrix) : list matrix :=
  map (fun t => map (fun x => mixture_combiner_row (gate_row t x) (expert_bank_row x)) X)
      (seq 0 num_tasks).

End MMoE.

(** *** The model of [main] *)

Record model_weights : Type := {
  mmoe_layer : mmoe_weights;
  tower : nat -> weights;
  output : nat -> weights
}.

(** What the construction fixes: the input width and, per task, the
    units of the output layer. *)
Record model : Type := {
  num_features : nat;
  output_units : list nat;
  parameters : model_weights;
  experts_activation : R -> R
}.

(** [output_info[index][0]] for the tasks of the MMoE layer. *)
Fixpoint units_of (output_info : list (nat * string)) (indices : list nat)
  : result (list nat) :=
  match indices with
  | [] => Ok []
  | index :: rest =>
      match nth_error output_info index, units_of output_info rest with
      | Some info, Ok us => Ok (fst info :: us)
      | None, _ => Raise IndexError
      | _, Raise e => Raise e
      end
  end.

(** The construction in [main]: [MMoE(units=4, num_experts=8,
    num_tasks=2)] on an input of [num_features] columns, and per task a
    [Dense(8, relu)] tower followed by a
    [Dense(output_info[index][0], softmax)] output layer. *)
Definition build_model (features : nat) (output_info : list (nat * string))
    (act : R -> R) (th : model_weights) : result model :=
  match units_of output_info (seq 0 2) with
  | Ok us => Ok {| num_features := features; output_units := us;
                   parameters := th; experts_activation := act |}
  | Raise e => Raise e
  end.

(** The two layers stacked on the mixed embedding of task [index]. *)
Definition task_output (m : model) (index units : nat) (task_layer : matrix) : matrix :=
  map (fun x => dense units softmax (output (parameters m) index)
                      (dense 8 relu (tower (parameters m) index) x))
      task_layer.

(** [model.predict(X)]: one prediction matrix per task; [ValueError] when
    the batch has not the width of the input layer. *)
Definition predict (m : model) (X : matrix) : result (list matrix) :=
  if has_width (num_features m) X then
    Ok (map (fun it => task_output m (fst it) (snd (snd it)) (fst (snd it)))
            (ROC.enumerate
               (combine (mmoe 4 8 2 (experts_activation m)
                              (mmoe_layer (parameters m)) X)
                        (output_units m))))
  else Raise ValueError.

(** The shape of a prediction matrix whose rows are distributions. *)
Definition distribution_rows (rows cols : nat) (P : matrix) : Prop :=
  List.length P = rows /\
  Forall (fun r => List.length r = cols /\ vsum r = 1) P.

(** Constant weights and an all-zero batch, for concrete instances. *)
Definition constant_weights (c : R) : weights :=
  {| kernel := fun _ _ => c; bias := fun _ => c |}.

Definition constant_model_weights (c : R) : model_weights :=
  {| mmoe_layer := {| expert := fun _ => constant_weights c;
                      gate := fun _ => constant_weights c |};
     tower := fun _ => constant_weights c;
     output := fun _ => constant_weights c |}.

Definition zero_batch (rows width : nat) : matrix := repeat (repeat 0 width) rows.

End Net.

(* ================================================================== *)
(** ** Observations on a run *)

Module Observe.
Import Py Args Demo.

Section Events.

Context {frow : Type}.

Definition is_profiler (e : event frow) : bool :=
  match e with
  | ProfilerStart | ProfilerStop => true
  | _ => false
  end.

Definition is_iteration (e : event frow) : bool :=
  match e with
  | Print (LIteration _ _) => true
  | _ => false
  end.

Definition is_policy (e : event frow) : bool :=
  match e with
  | SetGlobalPolicy _ => true
  | _ => false
  end.

End Events.

(** [--predict] and [--profile] set as given, the rest of the command
    line unchanged. *)
Definition with_flags (a : args) (predict_flag profile_flag : bool) : args := {|
  train := train a;
  evaluate := evaluate a;
  predict := predict_flag;
  profile := profile_flag;
  tensorboard := tensorboard a;
  batch_size := batch_size a;
  precision := precision a;
  epochs := epochs a;
  num_iter := num_iter a;
  num_warmup := num_warmup a
|}.

(** A clock that does not advance between two reads. *)
Definition still_clock (n : nat) : float := 7%float.

(** [-b 64 --tensorboard] *)
Definition args_b64 : args := {|
  train := false;
  evaluate := "True";
  predict := false;
  profile := false;
  tensorboard := true;
  batch_size := 64;
  precision := "float32";
  epochs := 10;
  num_iter := 200;
  num_warmup := 3
|}.

(** [--epochs 4 --num_warmup 3]: the warm-up count is below the epoch
    count. *)
Definition args_4_3 : args := {|
  train := false;
  evaluate := "True";
  predict := false;
  profile := false;
  tensorboard := false;
  batch_size := 1;
  precision := "float32";
  epochs := 4;
  num_iter := 200;
  num_warmup := 3
|}.

(** The one-hot row of a record for a label column: [[0, 1]] when the
    field holds the value, [[1, 0]] otherwise. *)
Definition one_hot_of (name value : string) (r : raw_row) : list Z :=
  if String.eqb (column name r) value then [0; 1] else [1; 0].

(** The positions of a frame of [n] rows that are not drawn. *)
Definition complement (n : nat) (drawn : list nat) : list nat :=
  filter (fun i => negb (existsb (Nat.eqb i) drawn)) (seq 0 n).

End Observe.

(* ================================================================== *)
(** ** The evaluation harness *)

Module HarnessFacts.
Import Py Args Demo.
Local Open Scope py_scope.

Section Loop.

Context {frow : Type}.
Variable clock : nat -> float.
Variable a : args.
Variable p : prepared frow.
Variable n : Z.

(** The accumulator update of one repetition, as a pure step. *)
Let step (t0 : nat) (acc : float * Z) (i : Z) : float * Z :=
  if included a i
  then ((fst acc + elapsed clock t0 i)%float, snd acc + n * batch_size a)
  else acc.

Lemma repetition_run (t0 k : nat) (acc : float * Z) (w : world frow) :
  ticks w = (t0 + 2 * k)%nat ->
  repetition clock a p n acc (Z.of_nat k) w =
  (Ok (step t0 acc (Z.of_nat k)),
   {| ticks := (t0 + 2 * S k)%nat;
      out := out w ++ repetition_events clock a p n t0 (Z.of_nat k) |}).
Proof.
  intros Ht. destruct w as [t o]. cbn [ticks] in Ht.
  unfold repetition, repetition_events, step, elapsed.
  rewrite Nat2Z.id.
  replace (t0 + 2 * k + 1)%nat with (S t) by lia.
  replace (t0 + 2 * S k)%nat with (S (S t)) by lia.
  rewrite <- Ht. clear Ht.
  destruct (collecting a (Z.of_nat k));
    unfold when, print, emit, time_time, bind, ret; cbn [ticks out fst snd];
    repeat rewrite <- app_assoc; reflexivity.
Qed.

Lemma loop_run (m : nat) : forall (t0 k : nat) (acc : float * Z) (w : world frow),
  ticks w = (t0 + 2 * k)%nat ->
  for_each (repetition clock a p n) (map Z.of_nat (seq k m)) acc w =
  (Ok (fold_left (step t0) (map Z.of_nat (seq k m)) acc),
   {| ticks := (t0 + 2 * (k + m))%nat;
      out := out w ++ flat_map (repetition_events clock a p n t0)
                               (map Z.of_nat (seq k m)) |}).
Proof.
  induction m as [|m IH]; intros t0 k acc w Ht.
  - cbn [seq map for_each fold_left flat_map]. unfold ret.
    rewrite app_nil_r, Nat.add_0_r, <- Ht. destruct w; reflexivity.
  - cbn [seq map for_each fold_left flat_map]. unfold bind at 1.
    rewrite (repetition_run t0 k acc w Ht).
    rewrite (IH t0 (S k)) by reflexivity.
    cbn [ticks out]. rewrite <- app_assoc.
    replace (k + S m)%nat with (S k + m)%nat by lia. reflexivity.
Qed.

(** The accumulators are sums over the repetitions the guard lets through. *)
Lemma fold_step_sums (t0 : nat) (l : list Z) : forall (acc : float * Z),
  fold_left (step t0) l acc =
  (fold_left PrimFloat.add (map (elapsed clock t0) (filter (included a) l)) (fst acc),
   fold_left Z.add (map (fun _ => n * batch_size a) (filter (included a) l)) (snd acc)).
Proof.
  induction l as [|i l IH]; intros acc.
  - destruct acc; reflexivity.
  - cbn [fold_left filter]. rewrite IH. unfold step.
    destruct (included a i); reflexivity.
Qed.

End Loop.

Section Facts.

Context {frow : Type}.
Variable clock : nat -> float.

(** The guard of the source keeps exactly the repetitions described as
    kept. *)
Lemma contributing_kept (a : args) :
  contributing a = kept (epochs a) (num_warmup a).
Proof.
  unfold contributing, kept. apply filter_ext. intros i. unfold included.
  destruct (Z.leb_spec i (num_warmup a)); simpl; lia.
Qed.

(** The integer model of [int(a / b)] agrees with the binary64
    computation on sample operands. *)
Example int_of_truediv_samples :
  map (fun ab => int_of_truediv (fst ab) (snd ab))
      [(100, 10); (45, 1); (45, 2); (7, 3); (89, 90); (45, 0); (9007199254740991, 2)]
  = map (fun ab => int_of_truediv_binary64 (fst ab) (snd ab))
        [(100, 10); (45, 1); (45, 2); (7, 3); (89, 90); (45, 0); (9007199254740991, 2)].
Proof. vm_compute. reflexivity. Qed.

Lemma iteration_count_ok (a : args) (p : prepared frow) :
  batch_size a <> 0 ->
  iteration_count a p =
  Ok (Z.min (Z.quot (Z.of_nat (List.length (test_data p))) (batch_size a)) (num_iter a)).
Proof.
  intros Hb. unfold iteration_count, int_of_truediv.
  destruct (Z.eqb_spec (batch_size a) 0); [contradiction | reflexivity].
Qed.

Lemma iteration_count_zero (a : args) (p : prepared frow) :
  batch_size a = 0 -> iteration_count a p = Raise ZeroDivisionError.
Proof.
  intros Hb. unfold iteration_count, int_of_truediv. rewrite Hb. reflexivity.
Qed.

(** The harness is its loop, which never fails, followed by the report on
    the sums over the kept repetitions. *)
Lemma harness_run (a : args) (p : prepared frow) (n : Z) (w : world frow) :
  iteration_count a p = Ok n ->
  evaluation_harness clock a p w =
  report (sum_float (map (elapsed clock (ticks w)) (kept (epochs a) (num_warmup a))))
         (sum_int (map (fun _ => n * batch_size a) (kept (epochs a) (num_warmup a))))
         (after_loop clock a p n w).
Proof.
  intros Hn. unfold evaluation_harness.
  unfold bind at 1. unfold print, emit. cbn [ticks out].
  unfold bind at 1. unfold lift at 1. rewrite Hn.
  unfold bind at 1. unfold range.
  rewrite (loop_run clock a p n (Z.to_nat (epochs a)) (ticks w) 0) by (cbn [ticks]; lia).
  rewrite fold_step_sums. cbn [fst snd ticks out].
  fold (range (epochs a)). fold (contributing a). rewrite contributing_kept.
  unfold after_loop, sum_float, sum_int.
  rewrite <- app_assoc. cbn [app Nat.add]. reflexivity.
Qed.

Lemma harness_no_batch (a : args) (p : prepared frow) (w : world frow) :
  batch_size a = 0 ->
  evaluation_harness clock a p w =
  (Raise ZeroDivisionError, {| ticks := ticks w; out := out w ++ [Print LEvaluateStart] |}).
Proof.
  intros Hb. unfold evaluation_harness.
  unfold bind at 1. unfold print, emit. cbn [ticks out].
  unfold bind at 1. unfold lift at 1.
  rewrite (iteration_count_zero a p Hb). reflexivity.
Qed.

(** The report when both sums are usable: three lines, the run returns. *)
Lemma report_ok (T : float) (S : Z) (S' : float) (w : world frow) :
  float_of_int S = Ok S' ->
  PrimFloat.is_zero S' = false ->
  PrimFloat.is_zero T = false ->
  report T S w =
  (Ok tt,
   {| ticks := ticks w;
      out := out w ++ [Print (LLatencyRaw (T / S' * 1000)%float);
                       Print (LLatency (T / S' * 1000)%float);
                       Print (LThroughput (S' / T)%float)] |}).
Proof.
  intros HS HS' HT. unfold report.
  unfold bind, lift, ret, print, emit, truediv_float_int, truediv_int_float,
    float_truediv.
  rewrite HS, HS', HT. cbn [ticks out].
  repeat rewrite <- app_assoc. reflexivity.
Qed.

(** No sample at all: the first division raises and nothing is printed. *)
Lemma report_no_sample (T : float) (w : world frow) :
  report T 0 w = (Raise ZeroDivisionError, w).
Proof. reflexivity. Qed.

Lemma in_range (e i : Z) : In i (range e) <-> 0 <= i < e.
Proof.
  unfold range. rewrite in_map_iff. split.
  - intros [k [Hk Hin]]. apply in_seq in Hin. lia.
  - intros Hi. exists (Z.to_nat i). split; [lia | apply in_seq; lia].
Qed.

Lemma kept_nil (e w : Z) : e <= w -> kept e w = [].
Proof.
  intros He. unfold kept.
  assert (H : forall l, (forall i, In i l -> i < e) ->
                        filter (fun i => negb (i <=? w)) l = []).
  { induction l as [|i l IH]; intros Hl; [reflexivity|].
    cbn [filter]. destruct (Z.leb_spec i w) as [_|Hgt].
    - apply IH. intros j Hj. apply Hl. now right.
    - specialize (Hl i (or_introl eq_refl)). lia. }
  apply H. intros i Hi. apply in_range in Hi. lia.
Qed.

Lemma range_length (e : Z) : List.length (range e) = Z.to_nat e.
Proof. unfold range. now rewrite length_map, length_seq. Qed.

(** A repetition prints its timing and calls [model.evaluate] once; it
    reports no aggregate and fits nothing. *)
Lemma repetition_events_shape (a : args) (p : prepared frow) (n : Z) (t0 : nat) (i : Z) :
  forallb (fun e => negb (is_report e)) (repetition_events clock a p n t0 i) = true /\
  filter is_fit (repetition_events clock a p n t0 i) = [] /\
  List.length (filter is_evaluate (repetition_events clock a p n t0 i)) = 1%nat.
Proof.
  unfold repetition_events. destruct (collecting a i); repeat split; reflexivity.
Qed.

Lemma loop_events_shape (a : args) (p : prepared frow) (n : Z) (t0 : nat) (l : list Z) :
  forallb (fun e => negb (is_report e))
          (flat_map (repetition_events clock a p n t0) l) = true /\
  filter is_fit (flat_map (repetition_events clock a p n t0) l) = [] /\
  List.length (filter is_evaluate (flat_map (repetition_events clock a p n t0) l))
  = List.length l.
Proof.
  induction l as [|i l [IH1 [IH2 IH3]]]; [repeat split; reflexivity|].
  destruct (repetition_events_shape a p n t0 i) as [H1 [H2 H3]].
  cbn [flat_map]. rewrite forallb_app, !filter_app, length_app.
  rewrite H1, H2, H3, IH1, IH2, IH3. repeat split; reflexivity.
Qed.

(** The report only prints, whatever its outcome. *)
Lemma report_prints (T : float) (S : Z) (w : world frow) :
  exists tail,
    out (snd (report T S w)) = out w ++ tail /\
    ticks (snd (report T S w)) = ticks w /\
    filter is_fit tail = [] /\ filter is_evaluate tail = [].
Proof.
  unfold report, bind, lift, ret, print, emit, truediv_float_int,
    truediv_int_float, float_truediv.
  destruct (float_of_int S) as [S'|e]; cbn [fst snd].
  2:{ exists []. rewrite app_nil_r. repeat split; reflexivity. }
  destruct (PrimFloat.is_zero S'); cbn [fst snd].
  1:{ exists []. rewrite app_nil_r. repeat split; reflexivity. }
  destruct (PrimFloat.is_zero T); cbn [fst snd ticks out].
  - eexists. split; [reflexivity|]. repeat split; reflexivity.
  - eexists. repeat rewrite <- app_assoc. split; [reflexivity|].
    repeat split; reflexivity.
Qed.

(** C1. In every run of the harness, the repetitions excluded from the
    aggregate are exactly those whose 0-based index is at most the
    warm-up count; the loop leaves in [total_time] and [total_sample] the
    sums of the durations and of the sample counts of the other
    repetitions; the reported latency is the first sum divided by the
    second, times 1000 (milliseconds per sample), and the reported
    throughput is the second sum divided by the first (samples per
    second).  When both sums are non-zero the run returns after printing
    these values. *)
Theorem harness_aggregates (a : args) (p : prepared frow) (n : Z) (w : world frow) :
  iteration_count a p = Ok n ->
  let reps := kept (epochs a) (num_warmup a) in
  let T := sum_float (map (elapsed clock (ticks w)) reps) in
  let S := sum_int (map (fun _ => n * batch_size a) reps) in
  (forall i, In i (range (epochs a)) ->
             (included a i = false <-> i <= num_warmup a)) /\
  for_each (repetition clock a p n) (range (epochs a)) (0%float, 0)
           {| ticks := ticks w; out := out w ++ [Print LEvaluateStart] |}
  = (Ok (T, S), after_loop clock a p n w) /\
  evaluation_harness clock a p w = report T S (after_loop clock a p n w) /\
  (forall S' : float,
      float_of_int S = Ok S' ->
      PrimFloat.is_zero S' = false ->
      PrimFloat.is_zero T = false ->
      evaluation_harness clock a p w =
      (Ok tt,
       {| ticks := ticks (after_loop clock a p n w);
          out := out (after_loop clock a p n w)
                 ++ [Print (LLatencyRaw (T / S' * 1000)%float);
                     Print (LLatency (T / S' * 1000)%float);
                     Print (LThroughput (S' / T)%float)] |})).
Proof.
  intros Hn reps T S. split; [|split; [|split]].
  - intros i _. unfold included. lia.
  - unfold range.
    rewrite (loop_run clock a p n (Z.to_nat (epochs a)) (ticks w) 0)
      by (cbn [ticks]; lia).
    rewrite fold_step_sums. cbn [fst snd ticks out].
    fold (range (epochs a)). fold (contributing a). rewrite contributing_kept.
    unfold after_loop. rewrite <- app_assoc. reflexivity.
  - apply harness_run. exact Hn.
  - intros S' HS HS' HT. rewrite (harness_run a p n w Hn).
    apply report_ok; assumption.
Qed.

(** C2 (amended). With [epochs = 5] and [num_warmup = 3] exactly one
    repetition, the last one (index 4), contributes to the aggregate: the
    loop ends with [total_time] holding that repetition's duration and
    [total_sample] one repetition's sample count. *)
Theorem warmup_5_3_one_repetition (a : args) (p : prepared frow) (n : Z) (w : world frow) :
  epochs a = 5 ->
  num_warmup a = 3 ->
  contributing a = [4] /\
  List.length (contributing a) = 1%nat /\
  fst (for_each (repetition clock a p n) (range (epochs a)) (0%float, 0) w)
  = Ok ((0 + elapsed clock (ticks w) 4)%float, n * batch_size a).
Proof.
  intros He Hw.
  assert (Hc : contributing a = [4]).
  { unfold contributing, included. rewrite He, Hw. reflexivity. }
  repeat split.
  - exact Hc.
  - rewrite Hc. reflexivity.
  - unfold range.
    rewrite (loop_run clock a p n (Z.to_nat (epochs a)) (ticks w) 0)
      by (cbn [ticks]; lia).
    rewrite fold_step_sums. cbn [fst snd].
    fold (range (epochs a)). fold (contributing a). rewrite Hc. reflexivity.
Qed.

(** C3. The iteration count of every repetition is the minimum of the
    iteration cap and the floor of dataset size over batch size (for a
    positive batch size); with 100 rows, batch size 10 and cap 200 it is
    10. *)
Theorem iteration_count_min (a : args) (p : prepared frow) :
  0 < batch_size a ->
  iteration_count a p =
  Ok (Z.min (num_iter a) (Z.of_nat (List.length (test_data p)) / batch_size a)) /\
  (List.length (test_data p) = 100%nat -> batch_size a = 10 -> num_iter a = 200 ->
   iteration_count a p = Ok 10).
Proof.
  intros Hb.
  assert (H : iteration_count a p =
              Ok (Z.min (num_iter a)
                        (Z.of_nat (List.length (test_data p)) / batch_size a))).
  { rewrite iteration_count_ok by lia.
    rewrite Z.quot_div_nonneg by lia. now rewrite Z.min_comm. }
  split; [exact H|].
  intros Hl Hb10 Hcap. rewrite H, Hl, Hb10, Hcap. reflexivity.
Qed.

(** C4. When the warm-up count is at least the epoch count, no repetition
    is included in the aggregate and the harness fails: the division by
    the zero sample count raises [ZeroDivisionError], and no latency or
    throughput line (so no infinite or NaN value) is printed. *)
Theorem degenerate_aggregate_raises (a : args) (p : prepared frow) (w : world frow) :
  num_warmup a >= epochs a ->
  kept (epochs a) (num_warmup a) = [] /\
  contributing a = [] /\
  exists (w' : world frow) (evs : list (event frow)),
    evaluation_harness clock a p w = (Raise ZeroDivisionError, w') /\
    out w' = out w ++ evs /\
    forallb (fun e => negb (is_report e)) evs = true.
Proof.
  intros Hw.
  assert (Hk : kept (epochs a) (num_warmup a) = []) by (apply kept_nil; lia).
  split; [exact Hk|]. split; [rewrite contributing_kept; exact Hk|].
  destruct (Z.eq_dec (batch_size a) 0) as [Hb|Hb].
  - rewrite (harness_no_batch a p w Hb).
    eexists. exists [Print LEvaluateStart].
    split; [reflexivity|]. split; reflexivity.
  - rewrite (harness_run a p _ w (iteration_count_ok a p Hb)).
    rewrite Hk. cbn [map]. unfold sum_int. cbn [fold_left].
    rewrite report_no_sample.
    eexists. eexists. split; [reflexivity|].
    unfold after_loop. cbn [out]. split; [reflexivity|].
    cbn [forallb is_report negb andb].
    apply loop_events_shape.
Qed.

(** The events of the harness, whatever its outcome: it never fits the
    model and calls [model.evaluate] once per repetition. *)
Lemma harness_events (a : args) (p : prepared frow) (w : world frow) :
  batch_size a <> 0 ->
  exists evs,
    out (snd (evaluation_harness clock a p w)) = out w ++ Print LEvaluateStart :: evs /\
    filter is_fit evs = [] /\
    List.length (filter is_evaluate evs) = Z.to_nat (epochs a).
Proof.
  intros Hb. rewrite (harness_run a p _ w (iteration_count_ok a p Hb)).
  match goal with |- context [report ?T ?S ?w0] =>
    destruct (report_prints T S w0) as [tail [Ho [_ [Hf He]]]] end.
  rewrite Ho. unfold after_loop. cbn [out].
  match goal with |- context [flat_map ?f ?l] =>
    destruct (loop_events_shape a p
                (Z.min (Z.quot (Z.of_nat (List.length (test_data p))) (batch_size a))
                       (num_iter a))
                (ticks w) l) as [_ [Lf Le]] end.
  eexists. rewrite <- app_assoc. cbn [app]. split; [reflexivity|].
  rewrite !filter_app, length_app, Lf, Le, Hf, He, range_length.
  split; [reflexivity | cbn [List.length]; lia].
Qed.

(** C10. [--evaluate] is a string whose default is ['True'] and which is
    only tested for truthiness: the harness runs for every non-empty
    value, ['False'] and ['0'] included, and is skipped only for the
    empty string. *)
Theorem evaluate_tested_for_truthiness (a : args) (p : prepared frow) (w : world frow) :
  evaluate default_args = "True" /\
  (evaluate a <> "" ->
   evaluate_phase clock a p w = evaluation_harness clock a p w /\
   exists evs, out (snd (evaluate_phase clock a p w))
               = out w ++ Print LEvaluateStart :: evs) /\
  (evaluate a = "" -> evaluate_phase clock a p w = (Ok tt, w)) /\
  evaluate_phase clock (with_evaluate a "False") p w
  = evaluation_harness clock (with_evaluate a "False") p w /\
  evaluate_phase clock (with_evaluate a "0") p w
  = evaluation_harness clock (with_evaluate a "0") p w /\
  evaluate_phase clock default_args p w = evaluation_harness clock default_args p w.
Proof.
  split; [reflexivity|]. split; [|split; [|repeat split; reflexivity]].
  - intros Hne.
    assert (E : evaluate_phase clock a p w = evaluation_harness clock a p w).
    { unfold evaluate_phase, truthy_str.
      destruct (String.eqb_spec (evaluate a) ""); [contradiction | reflexivity]. }
    split; [exact E|]. rewrite E.
    destruct (Z.eq_dec (batch_size a) 0) as [Hb|Hb].
    + rewrite (harness_no_batch a p w Hb). exists []. reflexivity.
    + destruct (harness_events a p w Hb) as [evs [H _]]. now exists evs.
  - intros He. unfold evaluate_phase, truthy_str. rewrite He. reflexivity.
Qed.

End Facts.

(** C2, as stated, fails: with [epochs = 5] and [num_warmup = 3] the
    guard lets only repetition 4 through, so one repetition contributes,
    not two; on a 45-row test set with batch size 1 the loop ends with
    [total_sample = 45], not 90. *)
Lemma warmup_5_3_not_two :
  List.length (contributing args_5_3) <> 2%nat /\
  contributing args_5_3 = [4] /\
  snd (for_each (repetition sample_clock args_5_3 (sample_prepared 45) 45)
                (range (epochs args_5_3)) (0%float, 0) fresh_world)
  = {| ticks := 10; out := flat_map (repetition_events sample_clock args_5_3 (sample_prepared 45) 45 0) (range 5) |} /\
  fst (for_each (repetition sample_clock args_5_3 (sample_prepared 45) 45)
                (range (epochs args_5_3)) (0%float, 0) fresh_world)
  = Ok (1.0625%float, 45).
Proof.
  split; [vm_compute; discriminate|]. split; [reflexivity|].
  split; vm_compute; reflexivity.
Qed.

Lemma harness_aggregates_witness :
  iteration_count default_args (sample_prepared 45) = Ok 45 /\
  evaluation_harness sample_clock default_args (sample_prepared 45) fresh_world
  = report (sum_float (map (elapsed sample_clock 0) [4; 5; 6; 7; 8; 9]))
           (sum_int (map (fun _ => 45 * 1) [4; 5; 6; 7; 8; 9]))
           (after_loop sample_clock default_args (sample_prepared 45) 45 fresh_world).
Proof.
  split; [reflexivity|].
  exact (proj1 (proj2 (proj2
    (harness_aggregates sample_clock default_args (sample_prepared 45) 45
                        fresh_world eq_refl)))).
Defined.

Lemma warmup_5_3_one_repetition_witness :
  epochs args_5_3 = 5 /\ num_warmup args_5_3 = 3 /\
  List.length (contributing args_5_3) = 1%nat.
Proof.
  split; [reflexivity|]. split; [reflexivity|].
  exact (proj1 (proj2
    (warmup_5_3_one_repetition sample_clock args_5_3 (sample_prepared 45) 45
                               fresh_world eq_refl eq_refl))).
Defined.

Lemma iteration_count_min_witness :
  0 < batch_size args_b10 /\
  iteration_count args_b10 (sample_prepared 100) = Ok 10.
Proof.
  split; [reflexivity|].
  exact (proj2 (iteration_count_min args_b10 (sample_prepared 100) eq_refl)
               eq_refl eq_refl eq_refl).
Defined.

Lemma degenerate_aggregate_raises_witness :
  num_warmup args_3_7 >= epochs args_3_7 /\
  contributing args_3_7 = [].
Proof.
  split; [vm_compute; discriminate|].
  exact (proj1 (proj2
    (degenerate_aggregate_raises sample_clock args_3_7 (sample_prepared 45)
                                 fresh_world ltac:(vm_compute; discriminate)))).
Defined.

Lemma evaluate_tested_for_truthiness_witness :
  evaluate (with_evaluate default_args "") = "" /\
  evaluate_phase sample_clock (with_evaluate default_args "") (sample_prepared 2)
                 fresh_world
  = (Ok tt, fresh_world).
Proof.
  split; [reflexivity|].
  exact (proj1 (proj2 (proj2
    (evaluate_tested_for_truthiness sample_clock (with_evaluate default_args "")
                                    (sample_prepared 2) fresh_world))) eq_refl).
Defined.

(** The default command line on a 45-row test set: repetitions 4 to 9
    are timed, 270 samples in 10.125 s. *)
Example default_run_report :
  exists w,
    evaluation_harness sample_clock default_args (sample_prepared 45) fresh_world
    = (Ok tt, w) /\
    skipn 21 (out w) = [Print (LLatencyRaw (10.125 / 270 * 1000)%float);
                        Print (LLatency (10.125 / 270 * 1000)%float);
                        Print (LThroughput (270 / 10.125)%float)].
Proof. eexists. split; vm_compute; reflexivity. Qed.

End HarnessFacts.

(* ================================================================== *)
(** ** The ROC-AUC reporter *)

Module ROCFacts.
Import Py ROC.
Local Open Scope py_scope.

Section Reporter.

Context {X Y P score : Type}.
Variable predict : X -> list P.
Variable roc_auc_score : Y -> P -> result score.
Variable round4 : score -> score.
Variable self : callback X Y.

Let line_of (it : nat * string) : result (roc_line score) :=
  task_line roc_auc_score round4 self
            (predict (train_X self)) (predict (validation_X self))
            (predict (test_X self)) (fst it) (snd it).

Let body (_ : unit) (it : nat * string) : M (list (roc_line score)) unit :=
  l <- lift (line_of it) ;; print l.

Lemma on_epoch_end_loop (output_names : list string) :
  on_epoch_end predict output_names roc_auc_score round4 self
  = for_each body (enumerate output_names) tt.
Proof. reflexivity. Qed.

(** The loop stops at the first task whose line cannot be computed; the
    lines of the tasks before it are on the output, nothing else is. *)
Lemma loop_first_failure (before : list (nat * string)) :
  forall (lines : list (roc_line score)) (it : nat * string)
         (after : list (nat * string)) (e : exn) (stdout : list (roc_line score)),
    Forall2 (fun i l => line_of i = Ok l) before lines ->
    line_of it = Raise e ->
    for_each body (before ++ it :: after) tt stdout = (Raise e, stdout ++ lines).
Proof.
  induction before as [|b before IH]; intros lines it after e stdout Hb Hit.
  - inversion Hb; subst. cbn [app for_each]. unfold bind, body, lift, bind.
    rewrite Hit. now rewrite app_nil_r.
  - inversion Hb as [|? l ? lines' Hl Hrest]; subst.
    cbn [app for_each]. unfold bind at 1. unfold body at 1.
    unfold bind at 1. unfold lift at 1. rewrite Hl. unfold print at 1.
    rewrite (IH lines' it after e (stdout ++ [l]) Hrest Hit).
    now rewrite <- app_assoc.
Qed.

Lemma loop_all_ok (tasks : list (nat * string)) :
  forall (lines : list (roc_line score)) (stdout : list (roc_line score)),
    Forall2 (fun i l => line_of i = Ok l) tasks lines ->
    for_each body tasks tt stdout = (Ok tt, stdout ++ lines).
Proof.
  induction tasks as [|b tasks IH]; intros lines stdout Hb.
  - inversion Hb; subst. cbn [for_each]. unfold ret. now rewrite app_nil_r.
  - inversion Hb as [|? l ? lines' Hl Hrest]; subst.
    cbn [for_each]. unfold bind at 1. unfold body at 1.
    unfold bind at 1. unfold lift at 1. rewrite Hl. unfold print at 1.
    rewrite (IH lines' (stdout ++ [l]) Hrest).
    now rewrite <- app_assoc.
Qed.

Lemma combine_append {A B : Type} (l1 : list A) : forall (l2 : list A) (m1 m2 : list B),
  List.length l1 = List.length m1 ->
  combine (l1 ++ l2) (m1 ++ m2) = combine l1 m1 ++ combine l2 m2.
Proof.
  induction l1 as [|x l1 IH]; intros l2 [|y m1] m2 Hlen; cbn in Hlen;
    try discriminate; [reflexivity|].
  cbn [app combine]. f_equal. apply IH. now injection Hlen.
Qed.

Lemma enumerate_app (before after : list string) (name : string) :
  enumerate (before ++ name :: after)
  = enumerate before
    ++ (List.length before, name)
       :: combine (seq (S (List.length before)) (List.length after)) after.
Proof.
  unfold enumerate. rewrite length_app. cbn [List.length].
  rewrite seq_app. cbn [seq Nat.add].
  rewrite combine_append by now rewrite length_seq.
  reflexivity.
Qed.

(** An undefined score on any split makes the task's line fail. *)
Lemma undefined_score_fails_line (index : nat) (name : string) :
  (exists e, split_score roc_auc_score (train_Y self)
                         (predict (train_X self)) index = Raise e) \/
  (exists e, split_score roc_auc_score (validation_Y self)
                         (predict (validation_X self)) index = Raise e) \/
  (exists e, split_score roc_auc_score (test_Y self)
                         (predict (test_X self)) index = Raise e) ->
  exists e, line_of (index, name) = Raise e.
Proof.
  unfold line_of, task_line. cbn [fst snd].
  intros [[e H]|[[e H]|[e H]]].
  - rewrite H. now exists e.
  - destruct (split_score roc_auc_score (train_Y self) _ index) as [?|e1];
      [rewrite H; now exists e | now exists e1].
  - destruct (split_score roc_auc_score (train_Y self) _ index) as [?|e1];
      [|now exists e1].
    destruct (split_score roc_auc_score (validation_Y self) _ index) as [?|e2];
      [rewrite H; now exists e | now exists e2].
Qed.

(** C5 (amended). When the score of one task is undefined on one of its
    splits, the exception raised by [roc_auc_score] leaves
    [on_epoch_end]: the call ends with that exception, having printed
    the lines of the tasks that come before the failing one and nothing
    for the failing task or for any task after it. *)
Theorem undefined_metric_aborts_call
    (before after : list string) (name : string)
    (lines : list (roc_line score)) (stdout : list (roc_line score)) :
  Forall2 (fun i l => line_of i = Ok l) (enumerate before) lines ->
  ((exists e, split_score roc_auc_score (train_Y self)
                          (predict (train_X self)) (List.length before) = Raise e) \/
   (exists e, split_score roc_auc_score (validation_Y self)
                          (predict (validation_X self)) (List.length before) = Raise e) \/
   (exists e, split_score roc_auc_score (test_Y self)
                          (predict (test_X self)) (List.length before) = Raise e)) ->
  exists e,
    on_epoch_end predict (before ++ name :: after) roc_auc_score round4 self stdout
    = (Raise e, stdout ++ lines).
Proof.
  intros Hbefore Hundef.
  destruct (undefined_score_fails_line (List.length before) name Hundef) as [e He].
  exists e. rewrite on_epoch_end_loop, enumerate_app.
  apply loop_first_failure; assumption.
Qed.

End Reporter.

(** C5, as stated, fails: the labels of [income] on the test split hold
    one class while every score of [marital] is defined, yet the call
    raises [ValueError] and prints nothing, so the scores of [marital]
    are not reported. *)
Lemma undefined_metric_not_isolated :
  split_score reference_roc_auc_score (test_Y sample_callback)
              (sample_predict tt) 0 = Raise ValueError /\
  (exists l, task_line reference_roc_auc_score same_score sample_callback
                       (sample_predict tt) (sample_predict tt) (sample_predict tt)
                       1 "marital" = Ok l) /\
  on_epoch_end sample_predict sample_output_names reference_roc_auc_score
               same_score sample_callback []
  = (Raise ValueError, []) /\
  ~ (exists w l,
        on_epoch_end sample_predict sample_output_names reference_roc_auc_score
                     same_score sample_callback [] = w /\
        In l (snd w) /\ task l = "marital").
Proof.
  split; [vm_compute; reflexivity|].
  split; [eexists; vm_compute; reflexivity|].
  assert (E : on_epoch_end sample_predict sample_output_names reference_roc_auc_score
                           same_score sample_callback [] = (Raise ValueError, []))
    by (vm_compute; reflexivity).
  split; [exact E|].
  intros [w [l [Hw [Hin _]]]]. rewrite E in Hw. subst w. exact Hin.
Qed.

Lemma undefined_metric_aborts_call_witness :
  exists e,
    on_epoch_end sample_predict (["income"] ++ "marital" :: ["extra"])
                 reference_roc_auc_score same_score
                 (init unit (list (list Z))
                       (tt, [both_classes; both_classes; both_classes])
                       (tt, [both_classes; all_positive; both_classes])
                       (tt, [both_classes; both_classes; both_classes])) []
    = (Raise e,
       [] ++ [ {| task := "income"; train_auc := 1%float;
                  validation_auc := 1%float; test_auc := 1%float |} ]).
Proof.
  apply (undefined_metric_aborts_call sample_predict reference_roc_auc_score
           same_score _ ["income"] ["extra"] "marital").
  - constructor; [vm_compute; reflexivity | constructor].
  - right; left. exists ValueError. vm_compute. reflexivity.
Defined.

(** With both classes everywhere the call prints one line per task. *)
Example sound_call_reports_all :
  on_epoch_end sample_predict sample_output_names reference_roc_auc_score
               same_score sound_callback []
  = (Ok tt,
     [ {| task := "income"; train_auc := 1%float;
          validation_auc := 1%float; test_auc := 1%float |};
       {| task := "marital"; train_auc := 1%float;
          validation_auc := 1%float; test_auc := 1%float |} ]).
Proof. vm_compute. reflexivity. Qed.

End ROCFacts.

(* ================================================================== *)
(** ** The whole run: the splits, the training call, the repetitions *)

Module MainFacts.
Import Py Args Demo.
Local Open Scope py_scope.

Section Splits.

Context {frow : Type}.
Variable read_csv : string -> raw_frame.
Variable get_dummies : raw_frame -> list frow.
Variable fill_missing_column : list frow -> list frow.
Variable sample_half_index : Z -> list frow -> list nat.
Variable clock : nat -> float.

Let prepare : result (prepared frow) :=
  data_preparation read_csv get_dummies fill_missing_column sample_half_index.
Let run : args -> M (world frow) unit :=
  main read_csv get_dummies fill_missing_column sample_half_index clock.

(** Both frames are read from the same file, so the validation and test
    rows are drawn from the very records the training set is made of. *)
Lemma validation_drawn_from_training (p : prepared frow) :
  prepare = Ok p ->
  let idx := sample_half_index SEED (fill_missing_column (train_data p)) in
  take_rows (fill_missing_column (train_data p)) idx = Ok (validation_data p) /\
  exists ti tm vi vm,
    train_label p = [ti; tm] /\ validation_label p = [vi; vm] /\
    take_rows ti idx = Ok vi /\ take_rows tm idx = Ok vm.
Proof.
  unfold prepare, data_preparation. intros H.
  repeat match type of H with
         | context [match take_rows ?r ?i with _ => _ end] =>
             let E := fresh "E" in
             destruct (take_rows r i) eqn:E; try discriminate H
         end.
  injection H as <-. cbn [train_data validation_data train_label validation_label].
  split; [assumption|].
  do 4 eexists. repeat split; eassumption.
Qed.

Lemma test_drawn_from_training (p : prepared frow) :
  prepare = Ok p ->
  let idx := sample_half_index SEED (fill_missing_column (train_data p)) in
  let rest := filter (fun i => negb (existsb (Nat.eqb i) idx))
                     (seq 0 (List.length (fill_missing_column (train_data p)))) in
  take_rows (fill_missing_column (train_data p)) rest = Ok (test_data p) /\
  exists ti tm si sm,
    train_label p = [ti; tm] /\ test_label p = [si; sm] /\
    take_rows ti rest = Ok si /\ take_rows tm rest = Ok sm.
Proof.
  unfold prepare, data_preparation. intros H.
  repeat match type of H with
         | context [match take_rows ?r ?i with _ => _ end] =>
             let E := fresh "E" in
             destruct (take_rows r i) eqn:E; try discriminate H
         end.
  injection H as <-. cbn [train_data test_data train_label test_label].
  split; [assumption|].
  do 4 eexists. repeat split; eassumption.
Qed.

Lemma main_run (a : args) (p : prepared frow) (w : world frow) :
  prepare = Ok p ->
  run a w =
  (train_phase a p ;; precision_phase a ;; evaluate_phase clock a p)
    {| ticks := ticks w; out := out w ++ preamble a p |}.
Proof.
  intros Hp. unfold run, main. unfold bind at 1. unfold print at 1, emit at 1.
  unfold bind at 1. unfold lift at 1. fold prepare. rewrite Hp.
  unfold bind at 1. unfold print at 1, emit at 1.
  unfold bind at 1. unfold print at 1, emit at 1.
  unfold bind at 1. unfold print at 1, emit at 1.
  unfold bind at 1. unfold emit at 1.
  cbn [ticks out]. unfold preamble. repeat rewrite <- app_assoc. reflexivity.
Qed.

(** The events of the evaluation phase: no call of [model.fit], and one
    call of [model.evaluate] per repetition when the harness runs. *)
Lemma evaluate_phase_events (a : args) (p : prepared frow) (w : world frow) :
  exists evs,
    out (snd (evaluate_phase clock a p w)) = out w ++ evs /\
    filter is_fit evs = [] /\
    (evaluate a <> "" -> batch_size a <> 0 ->
     List.length (filter is_evaluate evs) = Z.to_nat (epochs a)).
Proof.
  unfold evaluate_phase, when, truthy_str.
  destruct (String.eqb_spec (evaluate a) "") as [He|He]; cbn [negb].
  - exists []. unfold ret. cbn [snd]. rewrite app_nil_r.
    repeat split. intros Hne. contradiction.
  - destruct (Z.eq_dec (batch_size a) 0) as [Hb|Hb].
    + rewrite (HarnessFacts.harness_no_batch clock a p w Hb).
      exists [Print LEvaluateStart]. repeat split. intros _ Hnb. contradiction.
    + destruct (HarnessFacts.harness_events clock a p w Hb) as [evs [Ho [Hf Hc]]].
      exists (Print LEvaluateStart :: evs). split; [exact Ho|].
      split; [exact Hf|]. intros _ _. exact Hc.
Qed.

(** The whole output of a run whose data loads. *)
Lemma main_events (a : args) (p : prepared frow) (w : world frow) :
  prepare = Ok p ->
  exists evs,
    out (snd (run a w))
    = out w ++ preamble a p ++ (if train a then [fit_call p] else [])
            ++ policy_events a ++ evs /\
    filter is_fit evs = [] /\
    (evaluate a <> "" -> batch_size a <> 0 ->
     List.length (filter is_evaluate evs) = Z.to_nat (epochs a)).
Proof.
  intros Hp. rewrite (main_run a p w Hp).
  unfold bind at 1.
  assert (Ht : forall w0 : world frow,
             train_phase a p w0
             = (Ok tt, {| ticks := ticks w0;
                          out := out w0 ++ (if train a then [fit_call p] else []) |})).
  { intros w0. unfold train_phase, when, emit, ret, fit_call.
    destruct (train a); [reflexivity|]. rewrite app_nil_r. now destruct w0. }
  rewrite Ht. unfold bind at 1.
  assert (Hq : forall w0 : world frow,
             precision_phase a w0
             = (Ok tt, {| ticks := ticks w0; out := out w0 ++ policy_events a |})).
  { intros w0. unfold precision_phase, when, emit, ret, policy_events.
    destruct (String.eqb (precision a) "float16"); [reflexivity|].
    rewrite app_nil_r. now destruct w0. }
  rewrite Hq. cbn [ticks out].
  match goal with |- context [evaluate_phase clock a p ?w0] =>
    destruct (evaluate_phase_events a p w0) as [evs [Ho [Hf Hc]]] end.
  exists evs. rewrite Ho. cbn [out]. repeat rewrite <- app_assoc.
  split; [reflexivity|]. split; assumption.
Qed.

Lemma policy_events_shape (a : args) :
  filter is_fit (@policy_events frow a) = [] /\
  filter is_evaluate (@policy_events frow a) = [].
Proof. unfold policy_events. destruct (String.eqb _ _); split; reflexivity. Qed.

(** The calls of [model.fit] in a run. *)
Lemma main_fit_events (a : args) (p : prepared frow) (w : world frow) :
  prepare = Ok p ->
  filter is_fit (out (snd (run a w)))
  = filter is_fit (out w) ++ (if train a then [fit_call p] else []).
Proof.
  intros Hp. destruct (main_events a p w Hp) as [evs [Ho [Hf _]]].
  rewrite Ho, !filter_app, Hf. destruct (policy_events_shape a) as [-> _].
  unfold preamble. cbn [filter is_fit app]. rewrite !app_nil_r.
  destruct (train a); reflexivity.
Qed.

(** A run whose data fails to load stops after printing the arguments. *)
Lemma main_load_failure (a : args) (e : exn) (w : world frow) :
  prepare = Raise e ->
  run a w = (Raise e, {| ticks := ticks w; out := out w ++ [Print (LArgs a)] |}).
Proof.
  intros Hp. unfold run, main. unfold bind at 1. unfold print at 1, emit at 1.
  unfold bind at 1. unfold lift at 1. fold prepare. rewrite Hp. reflexivity.
Qed.

(** C6 on the code.  With [--train], the only call of [model.fit] in a
    run is on the validation split, for features, labels and validation
    data alike, and the training split it leaves aside is made of the
    records the validation split is drawn from. *)
Theorem training_fits_validation_split (a : args) (p : prepared frow) (w : world frow) :
  prepare = Ok p ->
  train a = true ->
  filter is_fit (out (snd (run a w)))
  = filter is_fit (out w)
    ++ [ModelFit (validation_data p) (validation_label p)
                 (validation_data p, validation_label p) 1] /\
  take_rows (fill_missing_column (train_data p))
            (sample_half_index SEED (fill_missing_column (train_data p)))
  = Ok (validation_data p).
Proof.
  intros Hp Ht. split.
  - rewrite (main_fit_events a p w Hp), Ht. reflexivity.
  - apply (validation_drawn_from_training p Hp).
Qed.

(** C9.  [--epochs] does not affect training: the calls of [model.fit]
    in a run are the same whatever its value, with [--train] there is
    one such call and it asks for exactly one epoch, and the value sets
    the number of timed repetitions (calls of [model.evaluate]) of the
    harness. *)
Theorem epochs_only_sets_repetitions (a : args) (e : Z) (w : world frow) :
  filter is_fit (out (snd (run (with_epochs a e) w)))
  = filter is_fit (out (snd (run a w))) /\
  (forall p : prepared frow,
      prepare = Ok p ->
      train a = true ->
      filter is_fit (out (snd (run (with_epochs a e) w)))
      = filter is_fit (out w)
        ++ [ModelFit (validation_data p) (validation_label p)
                     (validation_data p, validation_label p) 1]) /\
  (forall p : prepared frow,
      prepare = Ok p ->
      evaluate a <> "" ->
      batch_size a <> 0 ->
      List.length (filter is_evaluate (out (snd (run (with_epochs a e) w))))
      = (List.length (filter is_evaluate (out w)) + Z.to_nat e)%nat).
Proof.
  split; [|split].
  - destruct prepare as [p|x] eqn:Hp.
    + now rewrite !(main_fit_events _ p w Hp).
    + rewrite !(main_load_failure _ x w Hp). cbn [snd out].
      now rewrite !filter_app.
  - intros p Hp Ht. rewrite (main_fit_events _ p w Hp). cbn [train with_epochs].
    rewrite Ht. reflexivity.
  - intros p Hp He Hb.
    destruct (main_events (with_epochs a e) p w Hp) as [evs [Ho [_ Hc]]].
    rewrite Ho, !filter_app, !length_app.
    destruct (policy_events_shape (with_epochs a e)) as [_ ->].
    rewrite (Hc He Hb). unfold preamble. cbn [filter is_evaluate List.length epochs with_epochs].
    destruct (train (with_epochs a e)); cbn [filter is_evaluate fit_call List.length]; lia.
Qed.

End Splits.

Lemma training_fits_validation_split_witness :
  exists p,
    data_preparation sample_read_csv sample_get_dummies sample_fill sample_half = Ok p /\
    train_data p = [100; 101; 102; 103]%nat /\
    validation_data p = [102; 100]%nat /\
    test_data p = [101; 103]%nat /\
    filter is_fit
      (out (snd (main sample_read_csv sample_get_dummies sample_fill sample_half
                      sample_clock args_train {| ticks := 0; out := [] |})))
    = [] ++ [ModelFit (validation_data p) (validation_label p)
                      (validation_data p, validation_label p) 1].
Proof.
  eexists. split; [vm_compute; reflexivity|].
  split; [reflexivity|]. split; [reflexivity|]. split; [reflexivity|].
  exact (proj1 (training_fits_validation_split
                  sample_read_csv sample_get_dummies sample_fill sample_half
                  sample_clock args_train _ {| ticks := 0; out := [] |}
                  eq_refl eq_refl)).
Defined.

Lemma epochs_only_sets_repetitions_witness :
  filter is_fit
    (out (snd (main sample_read_csv sample_get_dummies sample_fill sample_half
                    sample_clock (with_epochs args_train 3) {| ticks := 0; out := [] |})))
  = [ModelFit [102; 100]%nat [[[0; 1]; [1; 0]]; [[0; 1]; [0; 1]]]
              ([102; 100]%nat, [[[0; 1]; [1; 0]]; [[0; 1]; [0; 1]]]) 1] /\
  List.length
    (filter is_evaluate
       (out (snd (main sample_read_csv sample_get_dummies sample_fill sample_half
                       sample_clock (with_epochs args_train 3)
                       {| ticks := 0; out := [] |}))))
  = (0 + Z.to_nat 3)%nat.
Proof.
  split.
  - exact (proj1 (proj2 (epochs_only_sets_repetitions
                  sample_read_csv sample_get_dummies sample_fill sample_half
                  sample_clock args_train 3 {| ticks := 0; out := [] |}))
                 _ eq_refl eq_refl).
  - exact (proj2 (proj2 (epochs_only_sets_repetitions
                  sample_read_csv sample_get_dummies sample_fill sample_half
                  sample_clock args_train 3 {| ticks := 0; out := [] |}))
                 _ eq_refl ltac:(discriminate) ltac:(discriminate)).
Defined.

End MainFacts.

(* ================================================================== *)
(** ** The network: shapes and distributions *)

Module NetFacts.
Import Py Net.
Local Open Scope R_scope.

Lemma vsum_map_div (f : R -> R) (s : R) (v : vector) :
  vsum (map (fun z => f z / s) v) = vsum (map f v) / s.
Proof.
  induction v as [|z v IH]; cbn [map vsum fold_right].
  - unfold Rdiv. ring.
  - fold (vsum (map (fun z => f z / s) v)). fold (vsum (map f v)).
    rewrite IH. unfold Rdiv. ring.
Qed.

Lemma vsum_exp_nonneg (v : vector) : 0 <= vsum (map exp v).
Proof.
  induction v as [|z v IH]; cbn [map vsum fold_right]; [lra|].
  fold (vsum (map exp v)). pose proof (exp_pos z). lra.
Qed.

Lemma vsum_exp_pos (v : vector) : v <> [] -> 0 < vsum (map exp v).
Proof.
  destruct v as [|z v]; [congruence|]. intros _.
  cbn [map vsum fold_right]. fold (vsum (map exp v)).
  pose proof (exp_pos z). pose proof (vsum_exp_nonneg v). lra.
Qed.

Lemma softmax_length (v : vector) : List.length (softmax v) = List.length v.
Proof. unfold softmax. apply length_map. Qed.

(** Softmax of a non-empty vector sums to one. *)
Lemma softmax_sum (v : vector) : v <> [] -> vsum (softmax v) = 1.
Proof.
  intros Hv. unfold softmax. rewrite vsum_map_div.
  pose proof (vsum_exp_pos v Hv). unfold Rdiv. apply Rinv_r. lra.
Qed.

Lemma softmax_nonneg (v : vector) : Forall (fun q => 0 <= q) (softmax v).
Proof.
  unfold softmax. apply Forall_forall. intros q Hq.
  apply in_map_iff in Hq. destruct Hq as [z [<- Hz]].
  assert (Hv : v <> []) by (intros ->; inversion Hz).
  pose proof (vsum_exp_pos v Hv). pose proof (exp_pos z).
  apply Rlt_le. unfold Rdiv. apply Rmult_lt_0_compat; [assumption|].
  now apply Rinv_0_lt_compat.
Qed.

(** A softmax dense layer with at least one unit yields a distribution
    over its units. *)
Lemma dense_softmax_distribution (units : nat) (th : weights) (x : vector) :
  (0 < units)%nat ->
  List.length (dense units softmax th x) = units /\
  Forall (fun q => 0 <= q) (dense units softmax th x) /\
  vsum (dense units softmax th x) = 1.
Proof.
  intros Hu. unfold dense. split; [|split].
  - now rewrite softmax_length, length_map, length_seq.
  - apply softmax_nonneg.
  - apply softmax_sum. destruct units as [|u]; [lia|]. cbn [seq map]. congruence.
Qed.

Lemma task_output_rows (m : model) (index units : nat) (layer : matrix) :
  (0 < units)%nat ->
  distribution_rows (List.length layer) units (task_output m index units layer).
Proof.
  intros Hu. unfold distribution_rows, task_output. split; [apply length_map|].
  apply Forall_forall. intros r Hr. apply in_map_iff in Hr.
  destruct Hr as [x [<- _]].
  destruct (dense_softmax_distribution units (output (parameters m) index)
              (dense 8 relu (tower (parameters m) index) x) Hu) as [Hl [_ Hs]].
  now split.
Qed.

(** C7.  The model [main] builds (8 experts of 4 units, 2 tasks) with
    task output sizes 2 and 2, applied to a batch of 32 rows of the
    width it was built for, returns exactly two prediction matrices,
    each of 32 rows and 2 columns, and every row sums to 1. *)
Theorem model_predicts_two_distributions
    (features : nat) (name1 name2 : string) (act : R -> R) (th : model_weights)
    (X : matrix) :
  List.length X = 32%nat ->
  has_width features X = true ->
  exists (m : model) (P1 P2 : matrix),
    build_model features [(2%nat, name1); (2%nat, name2)] act th = Ok m /\
    predict m X = Ok [P1; P2] /\
    distribution_rows 32 2 P1 /\
    distribution_rows 32 2 P2.
Proof.
  intros Hrows Hwidth.
  eexists. eexists. eexists.
  split; [reflexivity|].
  unfold predict. cbn [num_features output_units parameters experts_activation].
  rewrite Hwidth. unfold mmoe. cbn [seq map combine ROC.enumerate List.length fst snd].
  split; [reflexivity|].
  split.
  - match goal with |- distribution_rows _ _ (task_output ?m ?i ?u ?l) =>
      pose proof (task_output_rows m i u l ltac:(lia)) as H end.
    rewrite length_map, Hrows in H. exact H.
  - match goal with |- distribution_rows _ _ (task_output ?m ?i ?u ?l) =>
      pose proof (task_output_rows m i u l ltac:(lia)) as H end.
    rewrite length_map, Hrows in H. exact H.
Qed.

(** C8.  For every configuration with at least one expert and every
    input batch the Gating Network accepts, each row of its output is a
    probability distribution over the experts: one entry per expert, no
    negative entry, and a sum equal to 1 (hence within 1e-6 of 1). *)
Theorem gate_rows_are_distributions
    (width num_experts : nat) (th : mmoe_weights) (t : nat) (X : matrix) :
  (0 < num_experts)%nat ->
  (has_width width X = true ->
   exists G, gating_network width num_experts th t X = Ok G) /\
  (forall G : matrix,
      gating_network width num_experts th t X = Ok G ->
      List.length G = List.length X /\
      Forall (fun row =>
                List.length row = num_experts /\
                Forall (fun q => 0 <= q) row /\
                vsum row = 1 /\
                Rabs (vsum row - 1) <= / 1000000) G).
Proof.
  intros Hn. unfold gating_network. split.
  - intros ->. now eexists.
  - intros G HG. destruct (has_width width X); [|discriminate].
    injection HG as <-. split; [apply length_map|].
    apply Forall_forall. intros row Hrow. apply in_map_iff in Hrow.
    destruct Hrow as [x [<- _]]. unfold gate_row.
    destruct (dense_softmax_distribution num_experts (gate th t) x Hn)
      as [Hl [Hp Hs]].
    repeat split; try assumption.
    rewrite Hs. replace (1 - 1) with 0 by ring. rewrite Rabs_R0.
    apply Rlt_le, Rinv_0_lt_compat. lra.
Qed.

Lemma model_predicts_two_distributions_witness :
  List.length (zero_batch 32 3) = 32%nat /\
  has_width 3 (zero_batch 32 3) = true /\
  exists (m : model) (P1 P2 : matrix),
    build_model 3 [(2%nat, "income"); (2%nat, "marital")] (Rmax 0)
                (constant_model_weights 1) = Ok m /\
    predict m (zero_batch 32 3) = Ok [P1; P2] /\
    distribution_rows 32 2 P1 /\
    distribution_rows 32 2 P2.
Proof.
  split; [reflexivity|]. split; [reflexivity|].
  apply (model_predicts_two_distributions 3 "income" "marital" (Rmax 0)
           (constant_model_weights 1) (zero_batch 32 3)); reflexivity.
Defined.

Lemma gate_rows_are_distributions_witness :
  (0 < 8)%nat /\
  exists G, gating_network 3 8 (mmoe_layer (constant_model_weights 1)) 0
                           (zero_batch 32 3) = Ok G.
Proof.
  split; [lia|].
  apply (proj1 (gate_rows_are_distributions 3 8
                  (mmoe_layer (constant_model_weights 1)) 0 (zero_batch 32 3)
                  ltac:(lia))).
  reflexivity.
Defined.

End NetFacts.

(* ================================================================== *)
(** ** Further facts on the evaluation harness *)

Module HarnessMore.
Import Py Args Demo Observe.
Local Open Scope py_scope.

Section More.

Context {frow : Type}.
Variable clock : nat -> float.

Lemma sum_int_constant (c : Z) (l : list Z) :
  sum_int (map (fun _ => c) l) = Z.of_nat (List.length l) * c.
Proof.
  unfold sum_int.
  assert (H : forall acc, fold_left Z.add (map (fun _ => c) l) acc
                          = acc + Z.of_nat (List.length l) * c).
  { induction l as [|x l IH]; intros acc; cbn [map fold_left List.length].
    - lia.
    - rewrite IH. lia. }
  rewrite H. lia.
Qed.

Lemma kept_seq_length (w : Z) (m : nat) : forall k : nat,
  List.length (filter (fun i => negb (i <=? w)) (map Z.of_nat (seq k m)))
  = Z.to_nat (Z.of_nat (k + m) - Z.max (w + 1) (Z.of_nat k)).
Proof.
  induction m as [|m IH]; intros k.
  - cbn [seq map filter List.length]. lia.
  - cbn [seq map filter]. destruct (Z.leb_spec (Z.of_nat k) w) as [Hle|Hgt];
      cbn [negb List.length]; rewrite IH; lia.
Qed.

(** The number of kept repetitions. *)
Lemma kept_length (e w : Z) :
  List.length (kept e w) = Z.to_nat (e - Z.max (w + 1) 0).
Proof.
  unfold kept, range. rewrite kept_seq_length. cbn [Nat.add]. lia.
Qed.

(** The loop, from the state reached after the start line. *)
Lemma loop_totals (a : args) (p : prepared frow) (n : Z) (w : world frow) :
  for_each (repetition clock a p n) (range (epochs a)) (0%float, 0)
           {| ticks := ticks w; out := out w ++ [Print LEvaluateStart] |}
  = (Ok (sum_float (map (elapsed clock (ticks w)) (kept (epochs a) (num_warmup a))),
         sum_int (map (fun _ => n * batch_size a) (kept (epochs a) (num_warmup a)))),
     after_loop clock a p n w).
Proof.
  unfold range.
  rewrite (HarnessFacts.loop_run clock a p n (Z.to_nat (epochs a)) (ticks w) 0)
    by (cbn [ticks]; lia).
  rewrite HarnessFacts.fold_step_sums. cbn [fst snd ticks out].
  fold (range (epochs a)). fold (contributing a).
  rewrite HarnessFacts.contributing_kept.
  unfold after_loop. rewrite <- app_assoc. reflexivity.
Qed.

(** The report prints nothing but report lines. *)
Lemma report_tail (T : float) (S : Z) (w : world frow) :
  exists tail,
    snd (report T S w) = {| ticks := ticks w; out := out w ++ tail |} /\
    forallb is_report tail = true.
Proof.
  unfold report, bind, lift, ret, print, emit, truediv_float_int,
    truediv_int_float, float_truediv.
  destruct (float_of_int S) as [S'|e]; cbn [fst snd].
  2:{ exists []. rewrite app_nil_r. destruct w. split; reflexivity. }
  destruct (PrimFloat.is_zero S'); cbn [fst snd].
  1:{ exists []. rewrite app_nil_r. destruct w. split; reflexivity. }
  destruct (PrimFloat.is_zero T); cbn [fst snd ticks out].
  - eexists. split; reflexivity.
  - eexists. repeat rewrite <- app_assoc. split; reflexivity.
Qed.

(** The state a harness ends in, whatever its outcome: the start line,
    the events of every repetition, then report lines only. *)
Lemma harness_output (a : args) (p : prepared frow) (n : Z) (w : world frow) :
  iteration_count a p = Ok n ->
  exists tail,
    snd (evaluation_harness clock a p w)
    = {| ticks := (ticks w + 2 * Z.to_nat (epochs a))%nat;
         out := out w ++ Print LEvaluateStart
                :: flat_map (repetition_events clock a p n (ticks w))
                            (range (epochs a)) ++ tail |} /\
    forallb is_report tail = true.
Proof.
  intros Hn. rewrite (HarnessFacts.harness_run clock a p n w Hn).
  match goal with |- context [report ?T ?S ?w0] =>
    destruct (report_tail T S w0) as [tail [Ho Ht]] end.
  exists tail. rewrite Ho. unfold after_loop. cbn [ticks out].
  rewrite <- app_assoc. cbn [app]. split; [reflexivity | exact Ht].
Qed.

Lemma filter_flat_map {A B : Type} (f : B -> bool) (g : A -> list B) (l : list A) :
  filter f (flat_map g l) = flat_map (fun x => filter f (g x)) l.
Proof.
  induction l as [|x l IH]; [reflexivity|].
  cbn [flat_map]. now rewrite filter_app, IH.
Qed.

Lemma filter_none {A : Type} (f g : A -> bool) (l : list A) :
  forallb g l = true ->
  (forall x, g x = true -> f x = false) ->
  filter f l = [].
Proof.
  intros Hl Hfg. induction l as [|x l IH]; [reflexivity|].
  cbn [forallb] in Hl. apply andb_prop in Hl. destruct Hl as [Hx Hl].
  cbn [filter]. rewrite (Hfg x Hx). now apply IH.
Qed.

(** X1.  The sample count the loop accumulates is the number of kept
    repetitions, [max 0 (epochs - max (num_warmup + 1) 0)], times the
    samples of one repetition, [num_iter * batch_size]. *)
Theorem total_sample_closed_form (a : args) (p : prepared frow) (n : Z) (w : world frow) :
  exists (T : float) (w' : world frow),
    for_each (repetition clock a p n) (range (epochs a)) (0%float, 0) w
    = (Ok (T, Z.max 0 (epochs a - Z.max (num_warmup a + 1) 0) * (n * batch_size a)), w')
    /\ ticks w' = (ticks w + 2 * Z.to_nat (epochs a))%nat.
Proof.
  unfold range.
  rewrite (HarnessFacts.loop_run clock a p n (Z.to_nat (epochs a)) (ticks w) 0)
    by lia.
  rewrite HarnessFacts.fold_step_sums. cbn [fst snd].
  fold (range (epochs a)). fold (contributing a).
  rewrite HarnessFacts.contributing_kept.
  fold (sum_int (map (fun _ => n * batch_size a) (kept (epochs a) (num_warmup a)))).
  rewrite sum_int_constant, kept_length.
  replace (Z.of_nat (Z.to_nat (epochs a - Z.max (num_warmup a + 1) 0)))
    with (Z.max 0 (epochs a - Z.max (num_warmup a + 1) 0)) by lia.
  eexists. eexists. split; [reflexivity|]. cbn [ticks]. lia.
Qed.

(** X2.  The aggregate is empty exactly when [epochs <= num_warmup + 1]
    or there is no repetition at all ([epochs <= 0]): a warm-up count
    one below the epoch count already leaves nothing, and the harness
    then raises [ZeroDivisionError] without a report line. *)
Theorem degenerate_boundary (a : args) (p : prepared frow) (w : world frow) :
  (kept (epochs a) (num_warmup a) = [] <-> epochs a <= Z.max (num_warmup a + 1) 0) /\
  (epochs a <= Z.max (num_warmup a + 1) 0 ->
   exists (w' : world frow) (evs : list (event frow)),
     evaluation_harness clock a p w = (Raise ZeroDivisionError, w') /\
     out w' = out w ++ evs /\
     forallb (fun e => negb (is_report e)) evs = true).
Proof.
  assert (Hiff : kept (epochs a) (num_warmup a) = []
                 <-> epochs a <= Z.max (num_warmup a + 1) 0).
  { rewrite <- length_zero_iff_nil, kept_length. lia. }
  split; [exact Hiff|]. intros He.
  assert (Hk : kept (epochs a) (num_warmup a) = []) by (apply Hiff; exact He).
  destruct (Z.eq_dec (batch_size a) 0) as [Hb|Hb].
  - rewrite (HarnessFacts.harness_no_batch clock a p w Hb).
    eexists. exists [Print LEvaluateStart]. repeat split.
  - rewrite (HarnessFacts.harness_run clock a p _ w
               (HarnessFacts.iteration_count_ok a p Hb)).
    rewrite Hk. cbn [map]. unfold sum_int. cbn [fold_left].
    rewrite HarnessFacts.report_no_sample.
    eexists. eexists. split; [reflexivity|].
    unfold after_loop. cbn [out]. split; [reflexivity|].
    cbn [forallb is_report negb andb].
    apply HarnessFacts.loop_events_shape.
Qed.


(** X4.  When samples were counted but the kept durations add up to
    zero, the bare latency value is printed and the throughput division
    then raises [ZeroDivisionError]: neither the latency line nor the
    throughput line is printed. *)
Theorem zero_duration_stops_after_latency
    (a : args) (p : prepared frow) (n : Z) (w : world frow) (S' : float) :
  iteration_count a p = Ok n ->
  float_of_int (sum_int (map (fun _ => n * batch_size a)
                             (kept (epochs a) (num_warmup a)))) = Ok S' ->
  PrimFloat.is_zero S' = false ->
  PrimFloat.is_zero
    (sum_float (map (elapsed clock (ticks w)) (kept (epochs a) (num_warmup a)))) = true ->
  evaluation_harness clock a p w
  = (Raise ZeroDivisionError,
     {| ticks := ticks (after_loop clock a p n w);
        out := out (after_loop clock a p n w)
               ++ [Print (LLatencyRaw
                            (sum_float (map (elapsed clock (ticks w))
                                            (kept (epochs a) (num_warmup a)))
                             / S' * 1000)%float)] |}).
Proof.
  intros Hn HS HS' HT. rewrite (HarnessFacts.harness_run clock a p n w Hn).
  unfold report, bind, lift, ret, print, emit, truediv_float_int,
    truediv_int_float, float_truediv.
  rewrite HS, HS', HT. reflexivity.
Qed.

(** X5.  For a positive batch size the steps of a repetition never ask
    for more samples than the test set holds, nor for more steps than
    the iteration cap; they are not negative unless the cap is. *)
Theorem steps_within_test_set (a : args) (p : prepared frow) :
  0 < batch_size a ->
  exists n,
    iteration_count a p = Ok n /\
    n * batch_size a <= Z.of_nat (List.length (test_data p)) /\
    n <= num_iter a /\
    (0 <= num_iter a -> 0 <= n).
Proof.
  intros Hb. eexists. split; [apply HarnessFacts.iteration_count_ok; lia|].
  rewrite Z.quot_div_nonneg by lia.
  set (len := Z.of_nat (List.length (test_data p))).
  assert (Hlen : 0 <= len) by (unfold len; lia).
  pose proof (Z.mul_div_le len (batch_size a) Hb) as Hmul.
  pose proof (Z.div_pos len (batch_size a) Hlen Hb) as Hpos.
  split; [|split]; [nia | lia | lia].
Qed.

Lemma flat_map_at {B : Type} (h : Z) (c : list B) (l : list Z) :
  NoDup l ->
  flat_map (fun i => if i =? h then c else []) l
  = if existsb (Z.eqb h) l then c else [].
Proof.
  induction l as [|x l IH]; intros Hnd; [reflexivity|].
  inversion Hnd as [|? ? Hx Hl]; subst.
  cbn [flat_map existsb]. rewrite (IH Hl).
  destruct (Z.eqb_spec x h) as [->|Hne].
  - rewrite Z.eqb_refl. cbn [orb].
    destruct (existsb (Z.eqb h) l) eqn:E; [|now rewrite app_nil_r].
    apply existsb_exists in E. destruct E as [y [Hy Hhy]].
    apply Z.eqb_eq in Hhy. subst y. contradiction.
  - destruct (Z.eqb_spec h x) as [->|_]; [contradiction|]. reflexivity.
Qed.

Lemma range_NoDup (e : Z) : NoDup (range e).
Proof.
  unfold range. generalize 0%nat.
  induction (Z.to_nat e) as [|m IH]; intros k; cbn [seq map]; constructor.
  - rewrite in_map_iff. intros [j [Hj Hin]]. apply in_seq in Hin. lia.
  - apply IH.
Qed.

Lemma range_has_half (e : Z) :
  existsb (Z.eqb (e / 2)) (range e) = (0 <? e).
Proof.
  destruct (Z.ltb_spec 0 e) as [Hpos|Hneg].
  - apply existsb_exists. exists (e / 2). split; [|apply Z.eqb_refl].
    apply HarnessFacts.in_range. split.
    + apply Z.div_pos; lia.
    + apply Z.div_lt; lia.
  - destruct (existsb (Z.eqb (e / 2)) (range e)) eqn:E; [|reflexivity].
    apply existsb_exists in E. destruct E as [y [Hy _]].
    apply HarnessFacts.in_range in Hy. lia.
Qed.

(** X6.  With [--tensorboard] and at least one repetition the profiler
    is started once and stopped once, in that order (around repetition
    [epochs // 2]); without the flag, or without a repetition, it is
    never touched. *)
Theorem profiler_started_once (a : args) (p : prepared frow) (w : world frow) :
  batch_size a <> 0 ->
  exists evs,
    out (snd (evaluation_harness clock a p w)) = out w ++ evs /\
    filter is_profiler evs
    = if tensorboard a && (0 <? epochs a) then [ProfilerStart; ProfilerStop] else [].
Proof.
  intros Hb.
  destruct (harness_output a p _ w (HarnessFacts.iteration_count_ok a p Hb))
    as [tail [Ho Ht]].
  rewrite Ho. cbn [out]. eexists. split; [reflexivity|].
  cbn [filter is_profiler]. rewrite filter_app, filter_flat_map.
  rewrite (filter_none is_profiler is_report tail Ht)
    by (intros [[]| | | | | |]; cbn; congruence).
  rewrite app_nil_r.
  rewrite (flat_map_ext _ (fun i => if i =? epochs a / 2
                                    then (if tensorboard a
                                          then [ProfilerStart; ProfilerStop] else [])
                                    else [])).
  2:{ intros i. unfold repetition_events, collecting.
      destruct (tensorboard a), (i =? epochs a / 2); reflexivity. }
  rewrite (flat_map_at _ _ _ (range_NoDup (epochs a))), range_has_half.
  destruct (tensorboard a), (0 <? epochs a); reflexivity.
Qed.

(** X7.  Every repetition prints its timing line, the warm-up
    repetitions included, in index order and with the duration measured
    between its two clock reads. *)
Theorem every_repetition_prints_timing (a : args) (p : prepared frow) (w : world frow) :
  batch_size a <> 0 ->
  exists evs,
    out (snd (evaluation_harness clock a p w)) = out w ++ evs /\
    filter is_iteration evs
    = map (fun i => Print (LIteration i (elapsed clock (ticks w) i))) (range (epochs a)).
Proof.
  intros Hb.
  destruct (harness_output a p _ w (HarnessFacts.iteration_count_ok a p Hb))
    as [tail [Ho Ht]].
  rewrite Ho. cbn [out]. eexists. split; [reflexivity|].
  cbn [filter is_iteration]. rewrite filter_app, filter_flat_map.
  rewrite (filter_none is_iteration is_report tail Ht)
    by (intros [[]| | | | | |]; cbn; congruence).
  rewrite app_nil_r. clear Ho.
  induction (range (epochs a)) as [|i l IH]; [reflexivity|].
  cbn [flat_map map]. rewrite IH. unfold repetition_events.
  destruct (collecting a i); reflexivity.
Qed.

(** X8.  Every call of [model.evaluate] the harness makes is on the test
    split (features and labels), with the same step count and the batch
    size of the command line; the training and validation splits are
    never evaluated. *)
Theorem evaluates_test_split_only (a : args) (p : prepared frow) (n : Z) (w : world frow) :
  iteration_count a p = Ok n ->
  exists evs,
    out (snd (evaluation_harness clock a p w)) = out w ++ evs /\
    filter is_evaluate evs
    = map (fun _ => ModelEvaluate (test_data p) (test_label p) n (batch_size a))
          (range (epochs a)).
Proof.
  intros Hn. destruct (harness_output a p n w Hn) as [tail [Ho Ht]].
  rewrite Ho. cbn [out]. eexists. split; [reflexivity|].
  cbn [filter is_evaluate]. rewrite filter_app, filter_flat_map.
  rewrite (filter_none is_evaluate is_report tail Ht)
    by (intros [[]| | | | | |]; cbn; congruence).
  rewrite app_nil_r. clear Ho.
  induction (range (epochs a)) as [|i l IH]; [reflexivity|].
  cbn [flat_map map]. rewrite IH. unfold repetition_events.
  destruct (collecting a i); reflexivity.
Qed.

End More.

Lemma degenerate_boundary_witness :
  epochs args_4_3 <= Z.max (num_warmup args_4_3 + 1) 0 /\
  num_warmup args_4_3 < epochs args_4_3 /\
  exists (w' : world unit) (evs : list (event unit)),
    evaluation_harness sample_clock args_4_3 (sample_prepared 45) fresh_world
    = (Raise ZeroDivisionError, w') /\
    out w' = out fresh_world ++ evs /\
    forallb (fun e => negb (is_report e)) evs = true.
Proof.
  split; [vm_compute; discriminate|]. split; [reflexivity|].
  exact (proj2 (degenerate_boundary sample_clock args_4_3 (sample_prepared 45)
                                    fresh_world)
               ltac:(vm_compute; discriminate)).
Defined.


Lemma zero_duration_stops_after_latency_witness :
  evaluation_harness still_clock default_args (sample_prepared 45) fresh_world
  = (Raise ZeroDivisionError,
     {| ticks := ticks (after_loop still_clock default_args (sample_prepared 45) 45
                                   fresh_world);
        out := out (after_loop still_clock default_args (sample_prepared 45) 45
                               fresh_world)
               ++ [Print (LLatencyRaw
                            (sum_float (map (elapsed still_clock 0)
                                            (kept 10 3)) / 270 * 1000)%float)] |}).
Proof.
  exact (zero_duration_stops_after_latency still_clock default_args
           (sample_prepared 45) 45 fresh_world 270%float
           eq_refl eq_refl eq_refl eq_refl).
Defined.

Lemma steps_within_test_set_witness :
  0 < batch_size args_b10 /\
  exists n,
    iteration_count args_b10 (sample_prepared 45) = Ok n /\
    n * batch_size args_b10 <= Z.of_nat (List.length (test_data (sample_prepared 45))) /\
    n <= num_iter args_b10 /\
    (0 <= num_iter args_b10 -> 0 <= n).
Proof.
  split; [reflexivity|].
  exact (steps_within_test_set args_b10 (sample_prepared 45) eq_refl).
Defined.

Lemma profiler_started_once_witness :
  batch_size args_b64 <> 0 /\
  exists evs,
    out (snd (evaluation_harness sample_clock args_b64 (sample_prepared 45) fresh_world))
    = out fresh_world ++ evs /\
    filter is_profiler evs = [ProfilerStart; ProfilerStop].
Proof.
  split; [discriminate|].
  exact (profiler_started_once sample_clock args_b64 (sample_prepared 45) fresh_world
           ltac:(discriminate)).
Defined.

Lemma every_repetition_prints_timing_witness :
  batch_size args_5_3 <> 0 /\
  exists evs,
    out (snd (evaluation_harness sample_clock args_5_3 (sample_prepared 45) fresh_world))
    = out fresh_world ++ evs /\
    filter is_iteration evs
    = map (fun i => Print (LIteration i (elapsed sample_clock 0 i))) (range 5).
Proof.
  split; [discriminate|].
  exact (every_repetition_prints_timing sample_clock args_5_3 (sample_prepared 45)
           fresh_world ltac:(discriminate)).
Defined.

Lemma evaluates_test_split_only_witness :
  iteration_count args_b10 (sample_prepared 45) = Ok 4 /\
  exists evs,
    out (snd (evaluation_harness sample_clock args_b10 (sample_prepared 45) fresh_world))
    = out fresh_world ++ evs /\
    filter is_evaluate evs
    = map (fun _ => ModelEvaluate (test_data (sample_prepared 45))
                                  (test_label (sample_prepared 45)) 4 10)
          (range 10).
Proof.
  split; [reflexivity|].
  exact (evaluates_test_split_only sample_clock args_b10 (sample_prepared 45) 4
           fresh_world eq_refl).
Defined.

End HarnessMore.

(* ================================================================== *)
(** ** Further facts on [main] and [data_preparation] *)

Module MainMore.
Import Py Args Demo Observe.
Local Open Scope py_scope.

Section More.

Context {frow : Type}.
Variable read_csv : string -> raw_frame.
Variable get_dummies : raw_frame -> list frow.
Variable fill_missing_column : list frow -> list frow.
Variable sample_half_index : Z -> list frow -> list nat.
Variable clock : nat -> float.

Let prepare : result (prepared frow) :=
  data_preparation read_csv get_dummies fill_missing_column sample_half_index.
Let run : args -> M (world frow) unit :=
  main read_csv get_dummies fill_missing_column sample_half_index clock.

(** The records both frames are made of, and the expanded frame that is
    split. *)
Let records : raw_frame := firstn 90 (read_csv "data/census-income.test.gz").
Let other : list frow := fill_missing_column (get_dummies records).
Let drawn : list nat := sample_half_index SEED other.

(** *** The phases do not depend on what was printed before *)

Lemma report_frame (T : float) (S : Z) :
  exists (r : result unit) (tail : list (event frow)),
    forall w0 : world frow,
      report T S w0 = (r, {| ticks := ticks w0; out := out w0 ++ tail |}).
Proof.
  unfold report, bind, lift, ret, print, emit, truediv_float_int,
    truediv_int_float, float_truediv.
  destruct (float_of_int S) as [S'|e].
  2:{ exists (Raise e), []. intros [t o]. cbn [ticks out]. now rewrite app_nil_r. }
  destruct (PrimFloat.is_zero S').
  1:{ exists (Raise ZeroDivisionError), []. intros [t o]. cbn [ticks out].
      now rewrite app_nil_r. }
  destruct (PrimFloat.is_zero T).
  - eexists. eexists. intros w0. cbn [ticks out]. reflexivity.
  - eexists. eexists. intros w0. cbn [ticks out].
    repeat rewrite <- app_assoc. reflexivity.
Qed.

Lemma evaluate_phase_frame (a : args) (p : prepared frow) (t : nat) :
  exists (r : result unit) (t' : nat) (d : list (event frow)),
    (forall o, evaluate_phase clock a p {| ticks := t; out := o |}
               = (r, {| ticks := t'; out := o ++ d |})) /\
    filter is_fit d = [] /\ filter is_policy d = [] /\
    (evaluate a = "" -> d = []).
Proof.
  unfold evaluate_phase, when, truthy_str.
  destruct (String.eqb_spec (evaluate a) "") as [He|He]; cbn [negb].
  - exists (Ok tt), t, []. split; [|repeat split].
    intros o. unfold ret. now rewrite app_nil_r.
  - destruct (Z.eq_dec (batch_size a) 0) as [Hb|Hb].
    + exists (Raise ZeroDivisionError), t, [Print LEvaluateStart].
      split; [|repeat split; intros; contradiction].
      intros o. now rewrite (HarnessFacts.harness_no_batch clock a p _ Hb).
    + pose proof (HarnessFacts.iteration_count_ok a p Hb) as Hn.
      match type of Hn with _ = Ok ?n0 => set (n := n0) in * end.
      destruct (report_frame
                  (sum_float (map (elapsed clock t) (kept (epochs a) (num_warmup a))))
                  (sum_int (map (fun _ => n * batch_size a)
                                (kept (epochs a) (num_warmup a)))))
        as [r [tail Hr]].
      destruct (HarnessMore.report_tail
                  (sum_float (map (elapsed clock t) (kept (epochs a) (num_warmup a))))
                  (sum_int (map (fun _ => n * batch_size a)
                                (kept (epochs a) (num_warmup a))))
                  (@Build_world frow t [])) as [tail' [Ht' Hrep]].
      rewrite Hr in Ht'. cbn [snd ticks out app] in Ht'.
      injection Ht' as Ht'. subst tail'.
      exists r, (t + 2 * Z.to_nat (epochs a))%nat,
        (Print LEvaluateStart
           :: flat_map (repetition_events clock a p n t) (range (epochs a)) ++ tail).
      split; [|split; [|split]].
      * intros o. rewrite (HarnessFacts.harness_run clock a p n _ Hn).
        cbn [ticks]. rewrite Hr. unfold after_loop. cbn [ticks out].
        rewrite <- app_assoc. reflexivity.
      * cbn [filter is_fit]. rewrite filter_app.
        destruct (HarnessFacts.loop_events_shape clock a p n t (range (epochs a)))
          as [_ [-> _]].
        apply (HarnessMore.filter_none is_fit is_report tail Hrep).
        intros [[]| | | | | |]; cbn; congruence.
      * cbn [filter is_policy]. rewrite filter_app, HarnessMore.filter_flat_map.
        rewrite (HarnessMore.filter_none is_policy is_report tail Hrep)
          by (intros [[]| | | | | |]; cbn; congruence).
        rewrite app_nil_r.
        induction (range (epochs a)) as [|i l IH]; [reflexivity|].
        cbn [flat_map]. rewrite IH. unfold repetition_events.
        destruct (collecting a i); reflexivity.
      * intros Hempty. contradiction.
Qed.

(** The three phases of [main], from any output so far. *)
Lemma phases_frame (a : args) (p : prepared frow) (t : nat) :
  exists (r : result unit) (t' : nat) (d : list (event frow)),
    (forall o,
        (train_phase a p ;; precision_phase a ;; evaluate_phase clock a p)
          {| ticks := t; out := o |}
        = (r, {| ticks := t';
                 out := o ++ (if train a then [fit_call p] else [])
                          ++ policy_events a ++ d |})) /\
    filter is_fit d = [] /\ filter is_policy d = [] /\
    (evaluate a = "" -> d = []).
Proof.
  destruct (evaluate_phase_frame a p t) as [r [t' [d [Hd Hrest]]]].
  exists r, t', d. split; [|exact Hrest].
  intros o. unfold bind at 1.
  assert (Ht : train_phase a p {| ticks := t; out := o |}
               = (Ok tt, {| ticks := t;
                            out := o ++ (if train a then [fit_call p] else []) |})).
  { unfold train_phase, when, emit, ret, fit_call. cbn [ticks out].
    destruct (train a); [reflexivity|]. now rewrite app_nil_r. }
  rewrite Ht. unfold bind at 1.
  assert (Hq : forall o' : list (event frow),
             precision_phase a {| ticks := t; out := o' |}
             = (Ok tt, {| ticks := t; out := o' ++ policy_events a |})).
  { intros o'. unfold precision_phase, when, emit, ret, policy_events. cbn [ticks out].
    destruct (String.eqb (precision a) "float16"); [reflexivity|].
    now rewrite app_nil_r. }
  rewrite Hq, Hd. repeat rewrite <- app_assoc. reflexivity.
Qed.

(** X9.  The output of a run whose data loads, in order: the argument
    line, the three shape lines and the model summary; the call of
    [model.fit] when [--train] is given; the [mixed_float16] policy when
    [--precision] is exactly ['float16'] (so after training, and for no
    other value); then the events of the evaluation phase, which hold
    no fit call and no policy change and are absent when [--evaluate]
    is empty. *)
Theorem run_output_order (a : args) (p : prepared frow) (w : world frow) :
  prepare = Ok p ->
  exists evs,
    out (snd (run a w))
    = out w
      ++ [Print (LArgs a);
          Print (LShape "Training" (train_data p));
          Print (LShape "Validation" (validation_data p));
          Print (LShape "Test" (test_data p));
          ModelSummary]
      ++ (if train a
          then [ModelFit (validation_data p) (validation_label p)
                         (validation_data p, validation_label p) 1]
          else [])
      ++ (if String.eqb (precision a) "float16"
          then [SetGlobalPolicy "mixed_float16"] else [])
      ++ evs /\
    filter is_fit evs = [] /\
    filter is_policy evs = [] /\
    (evaluate a = "" -> evs = []).
Proof.
  intros Hp. unfold run.
  rewrite (MainFacts.main_run read_csv get_dummies fill_missing_column
             sample_half_index clock a p w Hp).
  destruct (phases_frame a p (ticks w)) as [r [t' [d [Hd Hrest]]]].
  exists d. split; [|exact Hrest].
  rewrite Hd. cbn [snd out]. unfold preamble, fit_call, policy_events.
  repeat rewrite <- app_assoc. reflexivity.
Qed.

(** X10.  [--predict] and [--profile] are parsed and never read: apart
    from the line that prints the arguments, a run with them set in any
    way has the same outcome, the same clock reads and the same output
    as the run without. *)
Theorem predict_and_profile_unused (a : args) (b1 b2 : bool) (w : world frow) :
  exists rest,
    out (snd (run a w)) = out w ++ Print (LArgs a) :: rest /\
    out (snd (run (with_flags a b1 b2) w))
    = out w ++ Print (LArgs (with_flags a b1 b2)) :: rest /\
    fst (run (with_flags a b1 b2) w) = fst (run a w) /\
    ticks (snd (run (with_flags a b1 b2) w)) = ticks (snd (run a w)).
Proof.
  destruct prepare as [p|e] eqn:Hp.
  - unfold run.
    rewrite !(MainFacts.main_run read_csv get_dummies fill_missing_column
                sample_half_index clock _ p w Hp).
    destruct (phases_frame a p (ticks w)) as [r [t' [d [Hd _]]]].
    change (train_phase (with_flags a b1 b2) p ;;
            precision_phase (with_flags a b1 b2) ;;
            evaluate_phase clock (with_flags a b1 b2) p)
      with (train_phase a p ;; precision_phase a ;; evaluate_phase clock a p).
    rewrite !Hd. cbn [fst snd out ticks]. unfold preamble.
    eexists. cbn [app]. repeat rewrite <- app_assoc. cbn [app].
    split; [reflexivity|]. split; [reflexivity|]. split; reflexivity.
  - unfold run.
    rewrite !(MainFacts.main_load_failure read_csv get_dummies fill_missing_column
                sample_half_index clock _ e w Hp).
    exists []. cbn [fst snd out ticks]. repeat split.
Qed.

(** *** The splits *)

Lemma take_rows_in_range {A : Type} (rows : list A) (idx : list nat) :
  Forall (fun i => (i < List.length rows)%nat) idx ->
  exists rs, take_rows rows idx = Ok rs /\ List.length rs = List.length idx.
Proof.
  induction idx as [|i idx IH]; intros Hidx.
  - exists []. split; reflexivity.
  - inversion Hidx as [|? ? Hi Hrest]; subst.
    destruct (IH Hrest) as [rs [Hrs Hlen]].
    destruct (nth_error rows i) as [r|] eqn:Hr.
    + exists (r :: rs). cbn [take_rows]. rewrite Hr, Hrs. cbn [List.length].
      split; [reflexivity | now rewrite Hlen].
    + apply nth_error_None in Hr. lia.
Qed.

Lemma take_rows_length {A : Type} (rows : list A) (idx : list nat) (rs : list A) :
  take_rows rows idx = Ok rs -> List.length rs = List.length idx.
Proof.
  revert rs. induction idx as [|i idx IH]; intros rs H; cbn [take_rows] in H.
  - injection H as <-. reflexivity.
  - destruct (nth_error rows i); [|discriminate].
    destruct (take_rows rows idx) as [rs'|]; [|discriminate].
    injection H as <-. cbn [List.length]. now rewrite (IH rs' eq_refl).
Qed.

Lemma take_rows_map {A B : Type} (f : A -> B) (rows : list A) (idx : list nat) :
  take_rows (map f rows) idx
  = match take_rows rows idx with
    | Ok rs => Ok (map f rs)
    | Raise e => Raise e
    end.
Proof.
  induction idx as [|i idx IH]; [reflexivity|].
  cbn [take_rows]. rewrite IH, nth_error_map.
  destruct (nth_error rows i); cbn [option_map];
    destruct (take_rows rows idx); reflexivity.
Qed.

Lemma complement_spec (n : nat) (idx : list nat) (i : nat) :
  In i (complement n idx) <-> (i < n)%nat /\ ~ In i idx.
Proof.
  unfold complement. rewrite filter_In, in_seq, negb_true_iff.
  split.
  - intros [Hi Hex]. split; [lia|]. intros Hin.
    assert (Ht : existsb (Nat.eqb i) idx = true).
    { apply existsb_exists. exists i. split; [exact Hin | apply Nat.eqb_refl]. }
    congruence.
  - intros [Hi Hnin]. split; [lia|].
    destruct (existsb (Nat.eqb i) idx) eqn:E; [|reflexivity].
    apply existsb_exists in E. destruct E as [j [Hj Hij]].
    apply Nat.eqb_eq in Hij. subst j. contradiction.
Qed.

Lemma complement_NoDup (n : nat) (idx : list nat) : NoDup (complement n idx).
Proof. unfold complement. apply NoDup_filter, seq_NoDup. Qed.

Lemma complement_length (n : nat) (idx : list nat) :
  NoDup idx ->
  Forall (fun i => (i < n)%nat) idx ->
  (List.length idx + List.length (complement n idx) = n)%nat.
Proof.
  intros Hnd Hin.
  assert (Hperm : Permutation (idx ++ complement n idx) (seq 0 n)).
  { apply NoDup_Permutation.
    - apply NoDup_app; [exact Hnd | apply complement_NoDup |].
      intros i Hi Hc. apply complement_spec in Hc. tauto.
    - apply seq_NoDup.
    - intros i. rewrite in_app_iff, complement_spec, in_seq.
      rewrite Forall_forall in Hin. split.
      + intros [Hi|[Hi _]]; [specialize (Hin i Hi)|]; lia.
      + intros Hi. destruct (in_dec Nat.eq_dec i idx); [now left | right].
        split; [lia | assumption]. }
  apply Permutation_length in Hperm.
  now rewrite length_app, length_seq in Hperm.
Qed.

Lemma one_hot_labels (name value : string) (df : raw_frame) :
  to_categorical (equals_as_int name value df) 2 = map (one_hot_of name value) df.
Proof.
  unfold to_categorical, equals_as_int, one_hot_of. rewrite map_map.
  apply map_ext. intros r. destruct (String.eqb (column name r) value); reflexivity.
Qed.

(** What [data_preparation] returns, in terms of the records read. *)
Lemma prepared_fields (p : prepared frow) :
  prepare = Ok p ->
  exists recs_v recs_t,
    take_rows records drawn = Ok recs_v /\
    take_rows records (complement (List.length other) drawn) = Ok recs_t /\
    take_rows other drawn = Ok (validation_data p) /\
    take_rows other (complement (List.length other) drawn) = Ok (test_data p) /\
    train_data p = get_dummies records /\
    train_label p = [map (one_hot_of "income_50k" " 50000+.") records;
                     map (one_hot_of "marital_stat" " Never married") records] /\
    validation_label p = [map (one_hot_of "income_50k" " 50000+.") recs_v;
                          map (one_hot_of "marital_stat" " Never married") recs_v] /\
    test_label p = [map (one_hot_of "income_50k" " 50000+.") recs_t;
                    map (one_hot_of "marital_stat" " Never married") recs_t].
Proof.
  unfold prepare, data_preparation, pd_read_csv.
  fold records. fold other. fold drawn. fold (complement (List.length other) drawn).
  rewrite !one_hot_labels, !take_rows_map.
  intros H.
  destruct (take_rows other drawn) as [vd|]; [|discriminate H].
  destruct (take_rows records drawn) as [rv|]; [|discriminate H].
  destruct (take_rows other (complement (List.length other) drawn)) as [td|];
    [|discriminate H].
  destruct (take_rows records (complement (List.length other) drawn)) as [rt|];
    [|discriminate H].
  injection H as <-. exists rv, rt. cbn. repeat split; reflexivity.
Qed.

(** X11.  When the expansion keeps one row per record and the sample
    draws positions of the frame, [data_preparation] returns; the
    training set has one row per record read, at most 90 whatever the
    size of the file; the validation set has one row per drawn
    position; every label matrix has as many rows as its frame; and
    when the drawn positions are distinct, validation and test together
    have as many rows as the training set. *)
Theorem data_preparation_returns :
  (forall df, List.length (get_dummies df) = List.length df) ->
  (forall f, List.length (fill_missing_column f) = List.length f) ->
  Forall (fun i => (i < List.length other)%nat) drawn ->
  exists p,
    prepare = Ok p /\
    List.length (train_data p)
    = Nat.min 90 (List.length (read_csv "data/census-income.test.gz")) /\
    List.length (validation_data p) = List.length drawn /\
    Forall (fun m => List.length m = List.length (train_data p)) (train_label p) /\
    Forall (fun m => List.length m = List.length (validation_data p))
           (validation_label p) /\
    Forall (fun m => List.length m = List.length (test_data p)) (test_label p) /\
    (NoDup drawn ->
     (List.length (validation_data p) + List.length (test_data p)
      = List.length (train_data p))%nat).
Proof.
  intros Hg Hf Hdrawn.
  assert (Hother : List.length other = List.length records).
  { unfold other. now rewrite Hf, Hg. }
  assert (Hcomp : Forall (fun i => (i < List.length other)%nat)
                         (complement (List.length other) drawn)).
  { apply Forall_forall. intros i Hi. now apply complement_spec in Hi. }
  destruct (take_rows_in_range other drawn Hdrawn) as [vd [Hvd Lvd]].
  destruct (take_rows_in_range other _ Hcomp) as [td [Htd Ltd]].
  assert (Hdrawn_r : Forall (fun i => (i < List.length records)%nat) drawn)
    by now rewrite <- Hother.
  assert (Hcomp_r : Forall (fun i => (i < List.length records)%nat)
                           (complement (List.length other) drawn))
    by now rewrite <- Hother.
  destruct (take_rows_in_range records drawn Hdrawn_r) as [rv [Hrv Lrv]].
  destruct (take_rows_in_range records _ Hcomp_r) as [rt [Hrt Lrt]].
  assert (Hp : exists p, prepare = Ok p).
  { unfold prepare, data_preparation, pd_read_csv.
    fold records. fold other. fold drawn. fold (complement (List.length other) drawn).
    rewrite !one_hot_labels, !take_rows_map, Hvd, Htd, Hrv, Hrt. now eexists. }
  destruct Hp as [p Hp]. exists p. split; [exact Hp|].
  destruct (prepared_fields p Hp)
    as [rv' [rt' [Hrv' [Hrt' [Hvd' [Htd' [Htr [Htl [Hvl Hsl]]]]]]]]].
  rewrite Hrv in Hrv'. injection Hrv' as <-.
  rewrite Hrt in Hrt'. injection Hrt' as <-.
  rewrite Hvd in Hvd'. injection Hvd' as <-.
  rewrite Htd in Htd'. injection Htd' as <-.
  rewrite Htr, Htl, Hvl, Hsl, Hg.
  assert (Hrec : List.length records
                 = Nat.min 90 (List.length (read_csv "data/census-income.test.gz"))).
  { unfold records. apply length_firstn. }
  split; [exact Hrec|]. split; [exact Lvd|].
  split; [repeat constructor; apply length_map|].
  split; [repeat constructor; rewrite length_map; congruence|].
  split; [repeat constructor; rewrite length_map; congruence|].
  intros Hnd. rewrite Lvd, Ltd, <- Hother.
  now apply complement_length.
Qed.



End More.

Lemma run_output_order_witness :
  exists evs,
    out (snd (main sample_read_csv sample_get_dummies sample_fill sample_half
                   sample_clock (with_evaluate args_train "")
                   {| ticks := 0; out := [] |}))
    = [] ++ [Print (LArgs (with_evaluate args_train ""));
             Print (LShape "Training" [100; 101; 102; 103]%nat);
             Print (LShape "Validation" [102; 100]%nat);
             Print (LShape "Test" [101; 103]%nat);
             ModelSummary]
         ++ [ModelFit [102; 100]%nat [[[0; 1]; [1; 0]]; [[0; 1]; [0; 1]]]
                      ([102; 100]%nat, [[[0; 1]; [1; 0]]; [[0; 1]; [0; 1]]]) 1]
         ++ [] ++ evs /\
    filter is_fit evs = [] /\
    filter is_policy evs = [] /\
    ("" = "" -> evs = []).
Proof.
  exact (run_output_order sample_read_csv sample_get_dummies sample_fill sample_half
           sample_clock (with_evaluate args_train "") _ {| ticks := 0; out := [] |}
           eq_refl).
Defined.

Lemma data_preparation_returns_witness :
  exists p,
    data_preparation sample_read_csv sample_get_dummies sample_fill sample_half = Ok p /\
    List.length (train_data p) = Nat.min 90 4 /\
    List.length (validation_data p) = 2%nat.
Proof.
  destruct (data_preparation_returns sample_read_csv sample_get_dummies sample_fill
              sample_half
              (fun df => length_seq (List.length df) 100)
              (fun f => eq_refl)
              ltac:(repeat constructor))
    as [p [Hp [Ht [Hv _]]]].
  exists p. split; [exact Hp|]. split; [exact Ht | exact Hv].
Defined.



End MainMore.

(* ================================================================== *)
(** ** Further facts on the ROC-AUC reporter *)

Module ROCMore.
Import Py ROC.
Local Open Scope py_scope.

Section More.

Context {X Y P score : Type}.
Variable predict : X -> list P.
Variable roc_auc_score : Y -> P -> result score.
Variable round4 : score -> score.
Variable self : callback X Y.

Let line_of (it : nat * string) : result (roc_line score) :=
  task_line roc_auc_score round4 self
            (predict (train_X self)) (predict (validation_X self))
            (predict (test_X self)) (fst it) (snd it).

(** The three scores of task [index] are defined. *)
Let scored (index : nat) : Prop :=
  (exists s, split_score roc_auc_score (train_Y self)
                         (predict (train_X self)) index = Ok s) /\
  (exists s, split_score roc_auc_score (validation_Y self)
                         (predict (validation_X self)) index = Ok s) /\
  (exists s, split_score roc_auc_score (test_Y self)
                         (predict (test_X self)) index = Ok s).

Lemma scored_line (index : nat) (name : string) :
  scored index -> exists l, line_of (index, name) = Ok l /\ task l = name.
Proof.
  intros [[s1 H1] [[s2 H2] [s3 H3]]].
  unfold line_of, task_line. cbn [fst snd]. rewrite H1, H2, H3.
  eexists. split; reflexivity.
Qed.

Lemma scored_lines (names : list string) : forall k : nat,
  (forall j, (j < List.length names)%nat -> scored (k + j)) ->
  exists lines,
    Forall2 (fun i l => line_of i = Ok l)
            (combine (seq k (List.length names)) names) lines /\
    map task lines = names.
Proof.
  induction names as [|name names IH]; intros k Hall.
  - exists []. split; [constructor | reflexivity].
  - destruct (scored_line k name) as [l [Hl Ht]].
    { rewrite <- (Nat.add_0_r k). apply Hall. cbn [List.length]. lia. }
    destruct (IH (S k)) as [lines [Hlines Hnames]].
    { intros j Hj. replace (S k + j)%nat with (k + S j)%nat by lia.
      apply Hall. cbn [List.length]. lia. }
    exists (l :: lines). cbn [List.length seq combine map]. split.
    + constructor; assumption.
    + now rewrite Ht, Hnames.
Qed.

(** X14.  When the three scores of every task are defined, the call
    returns after printing exactly one line per output name, in the
    order of [output_names] and each under its task's name; what was
    printed before is kept. *)
Theorem all_scores_defined_reports_every_task
    (output_names : list string) (stdout : list (roc_line score)) :
  (forall index, (index < List.length output_names)%nat -> scored index) ->
  exists lines,
    on_epoch_end predict output_names roc_auc_score round4 self stdout
    = (Ok tt, stdout ++ lines) /\
    map task lines = output_names.
Proof.
  intros Hall.
  destruct (scored_lines output_names 0 Hall) as [lines [Hlines Hnames]].
  exists lines. split; [|exact Hnames].
  rewrite (ROCFacts.on_epoch_end_loop predict roc_auc_score round4 self).
  now apply ROCFacts.loop_all_ok.
Qed.

(** X15.  When the callback holds fewer training label matrices than
    the model has outputs, the call raises [IndexError] at the first
    output without one, after the lines of the outputs before it. *)
Theorem missing_label_matrix_raises
    (before after : list string) (name : string)
    (lines : list (roc_line score)) (stdout : list (roc_line score)) :
  Forall2 (fun i l => line_of i = Ok l) (enumerate before) lines ->
  (List.length (train_Y self) <= List.length before)%nat ->
  on_epoch_end predict (before ++ name :: after) roc_auc_score round4 self stdout
  = (Raise IndexError, stdout ++ lines).
Proof.
  intros Hbefore Hshort.
  rewrite (ROCFacts.on_epoch_end_loop predict roc_auc_score round4 self).
  rewrite ROCFacts.enumerate_app.
  apply ROCFacts.loop_first_failure; [exact Hbefore|].
  unfold task_line, split_score, getitem. cbn [fst snd].
  apply nth_error_None in Hshort. now rewrite Hshort.
Qed.

End More.

Lemma all_scores_defined_reports_every_task_witness :
  exists lines,
    on_epoch_end sample_predict sample_output_names reference_roc_auc_score
                 same_score sound_callback []
    = (Ok tt, [] ++ lines) /\
    map task lines = sample_output_names.
Proof.
  apply (all_scores_defined_reports_every_task sample_predict
           reference_roc_auc_score same_score sound_callback sample_output_names []).
  intros index Hi.
  destruct index as [|[|index]]; [| |cbn in Hi; lia];
    (split; [|split]); eexists; vm_compute; reflexivity.
Defined.

Lemma missing_label_matrix_raises_witness :
  on_epoch_end sample_predict (["income"] ++ "marital" :: [])
               reference_roc_auc_score same_score
               (init unit (list (list Z))
                     (tt, [both_classes])
                     (tt, [both_classes; both_classes])
                     (tt, [both_classes; both_classes])) []
  = (Raise IndexError,
     [] ++ [ {| task := "income"; train_auc := 1%float;
                validation_auc := 1%float; test_auc := 1%float |} ]).
Proof.
  apply (missing_label_matrix_raises sample_predict reference_roc_auc_score
           same_score _ ["income"] [] "marital").
  - constructor; [vm_compute; reflexivity | constructor].
  - cbn. lia.
Defined.

End ROCMore.

(* ================================================================== *)
(** ** Further facts on the network *)

Module NetMore.
Import Py Net.
Local Open Scope R_scope.




Lemma task_output_shape (m : model) (index units : nat) (layer : matrix) :
  List.length (task_output m index units layer) = List.length layer /\
  Forall (fun r => List.length r = units) (task_output m index units layer).
Proof.
  unfold task_output. split; [apply length_map|].
  apply Forall_forall. intros r Hr. apply in_map_iff in Hr.
  destruct Hr as [x [<- _]]. unfold dense.
  now rewrite NetFacts.softmax_length, length_map, length_seq.
Qed.

(** X17.  The construction reads [output_info[0]] and [output_info[1]]:
    with fewer than two entries it raises [IndexError]; with two or
    more it succeeds, further entries are ignored, and the model
    returns, for a batch of any number of rows of the right width,
    exactly two prediction matrices with one row per example and as
    many columns as the first, respectively second, declared size. *)
Theorem model_shape_follows_output_info
    (features : nat) (output_info : list (nat * string)) (act : R -> R)
    (th : model_weights) :
  ((List.length output_info < 2)%nat ->
   build_model features output_info act th = Raise IndexError) /\
  (forall (i1 i2 : nat * string) (rest : list (nat * string)),
      output_info = i1 :: i2 :: rest ->
      exists m,
        build_model features output_info act th = Ok m /\
        forall X : matrix,
          has_width features X = true ->
          exists P1 P2,
            predict m X = Ok [P1; P2] /\
            List.length P1 = List.length X /\
            List.length P2 = List.length X /\
            Forall (fun r => List.length r = fst i1) P1 /\
            Forall (fun r => List.length r = fst i2) P2).
Proof.
  split.
  - intros Hlen. destruct output_info as [|i1 [|i2 rest]];
      [reflexivity | reflexivity | cbn in Hlen; lia].
  - intros i1 i2 rest ->. eexists. split; [reflexivity|].
    intros X HX. unfold predict.
    cbn [num_features output_units parameters experts_activation].
    rewrite HX. unfold mmoe.
    cbn [seq map combine ROC.enumerate List.length fst snd].
    eexists. eexists. split; [reflexivity|].
    match goal with
    | |- List.length (task_output ?m0 ?j1 ?u1 ?l1) = _ /\
         List.length (task_output ?m0 ?j2 ?u2 ?l2) = _ /\ _ /\ _ =>
        destruct (task_output_shape m0 j1 u1 l1) as [L1 S1];
        destruct (task_output_shape m0 j2 u2 l2) as [L2 S2]
    end.
    rewrite length_map in L1, L2. repeat split; assumption.
Qed.


Lemma model_shape_follows_output_info_witness :
  build_model 3 [(2%nat, "income")] (Rmax 0) (constant_model_weights 1)
  = Raise IndexError.
Proof.
  apply (proj1 (model_shape_follows_output_info 3 [(2%nat, "income")] (Rmax 0)
                  (constant_model_weights 1))).
  cbn. lia.
Defined.

End NetMore.
